(** * py3status [net_rate] module: a shallow embedding and its properties

    The embedding follows [py3status/modules/net_rate.py]:
    - Python [str] values are [string]s, the words of a row a [list string];
    - Python [float] values are IEEE 754 binary64 numbers, taken from the
      executable specification [SpecFloat] ([prec = 53], [emax = 1024]);
    - Python [int] values are [Z];
    - the [deltas] dict is an association list in insertion order, the order
      in which [max] iterates over its keys;
    - exceptions are explicit: a pure computation returns a [result], a method
      of the instance an [outcome] that carries the instance as it is left;
    - the counter file and the clock are inputs: each call is given what its
      two reads of the file and its two readings of the clock return.  *)

From Stdlib Require Import ZArith List String Ascii Bool Lia.
From Stdlib Require Import Floats.SpecFloat.
From Stdlib Require Import DecimalString.
Import ListNotations.

Local Open Scope string_scope.
Local Open Scope Z_scope.

(** ** Exceptions and results *)

Inductive exn : Set :=
| IOError
| IndexError
| ValueError
| ZeroDivisionError
| OverflowError
| KeyError
| TypeError
| StopIteration.

Definition exn_eqb (a b : exn) : bool :=
  match a, b with
  | IOError, IOError | IndexError, IndexError | ValueError, ValueError
  | ZeroDivisionError, ZeroDivisionError | OverflowError, OverflowError
  | KeyError, KeyError | TypeError, TypeError
  | StopIteration, StopIteration => true
  | _, _ => false
  end.

Inductive result (A : Type) : Type :=
| Ok (a : A)
| Err (e : exn).

Arguments Ok {A} a.
Arguments Err {A} e.

Definition rbind {A B : Type} (m : result A) (k : A -> result B) : result B :=
  match m with
  | Ok a => k a
  | Err e => Err e
  end.

(** [try: m except exc: h] for a computation that changes nothing. *)
Definition rcatch {A : Type} (m : result A) (exc : exn) (h : result A) : result A :=
  match m with
  | Ok a => Ok a
  | Err e => if exn_eqb e exc then h else Err e
  end.

Declare Scope py_scope.
Delimit Scope py_scope with py.
Notation "x <- m ;; k" := (rbind m (fun x => k))
  (at level 61, m at next level, right associativity) : py_scope.
Local Open Scope py_scope.

(** ** Python strings *)

Module PyStr.

(** The characters [str.strip()] and [int()] remove, in the ASCII range:
    those of [str.isspace()].  White space outside ASCII is left out. *)
Definition is_space (c : ascii) : bool :=
  match nat_of_ascii c with
  | 9%nat | 10%nat | 11%nat | 12%nat | 13%nat
  | 28%nat | 29%nat | 30%nat | 31%nat | 32%nat => true
  | _ => false
  end.

Fixpoint lstrip (s : string) : string :=
  match s with
  | EmptyString => EmptyString
  | String c s' => if is_space c then lstrip s' else s
  end.

Fixpoint rstrip (s : string) : string :=
  match s with
  | EmptyString => EmptyString
  | String c s' =>
      match rstrip s' with
      | EmptyString => if is_space c then EmptyString else String c EmptyString
      | r => String c r
      end
  end.

(** [s.strip()] *)
Definition strip (s : string) : string := rstrip (lstrip s).

(** [s.split(sep)] for a one-character separator: never the empty list. *)
Fixpoint split (sep : ascii) (s : string) : list string :=
  match s with
  | EmptyString => [EmptyString]
  | String c s' =>
      if Ascii.eqb c sep then EmptyString :: split sep s'
      else match split sep s' with
           | w :: ws => String c w :: ws
           | [] => [String c EmptyString]
           end
  end.

(** [s[:-1]] *)
Fixpoint drop_last (s : string) : string :=
  match s with
  | EmptyString => EmptyString
  | String c EmptyString => EmptyString
  | String c s' => String c (drop_last s')
  end.

(** [x in s] for two strings: [x] occurs in [s]. *)
Fixpoint contains (x s : string) : bool :=
  String.prefix x s ||
  match s with
  | EmptyString => false
  | String _ s' => contains x s'
  end.

(** [x in l] for a list of strings. *)
Definition mem (x : string) (l : list string) : bool :=
  existsb (String.eqb x) l.

(** [bool(s)]: a string is true when it is not empty. *)
Definition truthy (s : string) : bool :=
  match s with
  | EmptyString => false
  | String _ _ => true
  end.

Definition digit_val (c : ascii) : option Z :=
  let n := nat_of_ascii c in
  if (48 <=? n)%nat && (n <=? 57)%nat then Some (Z.of_nat n - 48) else None.

Fixpoint digits (acc : Z) (s : string) : option Z :=
  match s with
  | EmptyString => Some acc
  | String c s' =>
      match digit_val c with
      | Some d => digits (10 * acc + d) s'
      | None => None
      end
  end.

Definition unsigned (s : string) : option Z :=
  match s with
  | EmptyString => None
  | String _ _ => digits 0 s
  end.

(** [int(s)] on the decimal literals of a counter file: surrounding
    white space, an optional sign, one or more ASCII digits; anything else
    raises [ValueError].  The digit separator [_] and the digits outside
    ASCII that [int] also reads, and its limit on the number of digits, are
    left out. *)
Definition py_int (s : string) : result Z :=
  let body := strip s in
  let parsed :=
    match body with
    | String "-" s' => option_map Z.opp (unsigned s')
    | String "+" s' => unsigned s'
    | _ => unsigned body
    end in
  match parsed with
  | Some z => Ok z
  | None => Err ValueError
  end.

End PyStr.

(** [l[i]] for a list and a non-negative literal index. *)
Definition py_index {A : Type} (l : list A) (i : nat) : result A :=
  match nth_error l i with
  | Some a => Ok a
  | None => Err IndexError
  end.

(** ** Python floats: IEEE 754 binary64 *)

Module PyFloat.

Definition float : Set := spec_float.

Definition prec : Z := 53.
Definition emax : Z := 1024.

Definition fadd (x y : float) : float := SFadd prec emax x y.
Definition fsub (x y : float) : float := SFsub prec emax x y.
Definition fdiv (x y : float) : float := SFdiv prec emax x y.

(** [float(n)] for an int, before the overflow check: rounding to nearest,
    ties to even. *)
Definition of_int (n : Z) : float := binary_normalize prec emax n 0 false.

Definition is_zero (x : float) : bool :=
  match x with
  | S754_zero _ => true
  | _ => false
  end.

Definition is_inf (x : float) : bool :=
  match x with
  | S754_infinity _ => true
  | _ => false
  end.

Definition is_nan (x : float) : bool :=
  match x with
  | S754_nan => true
  | _ => false
  end.

(** [x > y] and [x >= y] *)
Definition fgt (x y : float) : bool := SFltb y x.
Definition fge (x y : float) : bool := SFleb y x.

(** [x == 0] against the int [0]: true of both zeros. *)
Definition eq_zero (x : float) : bool := SFeqb x (S754_zero false).

(** [n / d] for an int [n] and a float [d] (true division): the int is
    converted first, which raises [OverflowError] when it does not fit; a
    zero divisor raises [ZeroDivisionError]. *)
Definition truediv_int (n : Z) (d : float) : result float :=
  let a := of_int n in
  if is_inf a then Err OverflowError
  else if is_zero d then Err ZeroDivisionError
  else Ok (fdiv a d).

End PyFloat.

Import PyFloat.

(** ** Python dicts with string keys, in insertion order *)

Module PyDict.

Section Dict.
Context {V : Type}.

Definition dict : Type := list (string * V).

(** [d[k] = v]: an existing key keeps its place, a new one goes last. *)
Fixpoint set (k : string) (v : V) (d : dict) : dict :=
  match d with
  | [] => [(k, v)]
  | (k', v') :: d' =>
      if String.eqb k k' then (k', v) :: d' else (k', v') :: set k v d'
  end.

Fixpoint find (k : string) (d : dict) : option V :=
  match d with
  | [] => None
  | (k', v') :: d' => if String.eqb k k' then Some v' else find k d'
  end.

(** [d[k]] *)
Definition get (k : string) (d : dict) : result V :=
  match find k d with
  | Some v => Ok v
  | None => Err KeyError
  end.

(** Iterating over [d] yields its keys. *)
Definition keys (d : dict) : list string := map fst d.

End Dict.

Arguments dict V : clear implicits.

End PyDict.

(** [max(l, key=key)]: the first item whose key no later item exceeds; the
    key function is called once per item, in order. *)
Fixpoint max_loop {A : Type} (key : A -> result float)
    (cur : A) (curk : float) (l : list A) : result A :=
  match l with
  | [] => Ok cur
  | y :: l' =>
      ky <- key y ;;
      if fgt ky curk then max_loop key y ky l' else max_loop key cur curk l'
  end.

Definition py_max {A : Type} (key : A -> result float) (l : list A) : result A :=
  match l with
  | [] => Err ValueError
  | x :: l' => kx <- key x ;; max_loop key x kx l'
  end.

(** [zip(a, b)] where either argument may be [None] (not iterable). *)
Definition py_zip {A B : Type} (a : option (list A)) (b : option (list B))
  : result (list (A * B)) :=
  match a, b with
  | Some la, Some lb => Ok (combine la lb)
  | _, _ => Err TypeError
  end.

(** ** The module's configuration and instance *)

(** A value that is a [str] or a [list] of [str]. *)
Inductive str_or_list : Set :=
| Str (s : string)
| Lst (l : list string).

(** [x in c] *)
Definition py_in (x : string) (c : str_or_list) : bool :=
  match c with
  | Str s => PyStr.contains x s
  | Lst l => PyStr.mem x l
  end.

Record config : Set := mkConfig {
  all_interfaces : bool;
  cache_timeout : Z;
  format : string;
  format_no_connection : string;
  hide_if_zero : bool;
  interfaces : str_or_list;
  interfaces_blacklist : str_or_list
}.

(** The class attributes. *)
Definition default_config : config :=
  {| all_interfaces := true;
     cache_timeout := 2;
     format := "{interface}: {total}";
     format_no_connection := "";
     hide_if_zero := false;
     interfaces := Lst [];
     interfaces_blacklist := Str "lo" |}.

Definition to_list (c : str_or_list) : str_or_list :=
  match c with
  | Str s => Lst (PyStr.split "," s)
  | Lst l => Lst l
  end.

(** [post_config_hook], the part that parses the interface lists (the rest
    chooses the template of a value, which the host renders). *)
Definition post_config_hook (cfg : config) : config :=
  {| all_interfaces := all_interfaces cfg;
     cache_timeout := cache_timeout cfg;
     format := format cfg;
     format_no_connection := format_no_connection cfg;
     hide_if_zero := hide_if_zero cfg;
     interfaces := to_list (interfaces cfg);
     interfaces_blacklist := to_list (interfaces_blacklist cfg) |}.

(** A snapshot: the rows of the counter file, each a list of words. *)
Definition stat : Set := list (list string).

Record instance : Set := mkInstance {
  last_interface : option string;
  last_stat : option stat;
  last_time : float
}.

Record rates : Set := mkRates {
  total : float;
  up : float;
  down : float
}.

(** What one call of [currentSpeed] gets from the outside, in the order it
    asks: the lines of the counter file at each of its two reads ([None]
    when [open] fails) and the clock at each of its two readings. *)
Record io : Set := mkIo {
  read1 : option (list string);
  time1 : float;
  read2 : option (list string);
  time2 : float
}.

(** ** [_get_stat] *)

(** [x.strip().split(" ")[0][:-1]]: the first word less its last character. *)
Definition dev_name (x : string) : string :=
  PyStr.drop_last (hd EmptyString (PyStr.split " " (PyStr.strip x))).

Definition dev_filter (cfg : config) (x : string) : bool :=
  let x := dev_name x in
  if py_in x (interfaces_blacklist cfg) then false
  else if all_interfaces cfg then true
  else if py_in x (interfaces cfg) then true
  else false.

(** [list(filter(lambda x: x, _x.split(" ")))] *)
Definition words (_x : string) : list string :=
  filter PyStr.truthy (PyStr.split " " _x).

(** [open(self.devfile).readlines()]: the lines of the file, or the error
    of [open]. *)
Definition open_readlines (devfile : option (list string)) : result (list string) :=
  match devfile with
  | Some lines => Ok lines
  | None => Err IOError
  end.

(** The comprehension inside the [try] raises nothing, so the [None] of the
    handler for [StopIteration] is never returned; [open] is outside it. *)
Definition _get_stat (cfg : config) (devfile : option (list string))
  : result (option stat) :=
  lines <- open_readlines devfile ;;
  let x := filter (dev_filter cfg) (skipn 2 lines) in
  rcatch (Ok (Some (map words x))) StopIteration (Ok None).

(** ** [currentSpeed] *)

Inductive outcome (A : Type) : Type :=
| Returned (self : instance) (a : A)
| Raised (self : instance) (e : exn).

Arguments Returned {A} self a.
Arguments Raised {A} self e.

(** Statements of a method: they read and change the instance and may raise. *)
Definition M (A : Type) : Type := instance -> outcome A.

Definition mret {A : Type} (a : A) : M A := fun self => Returned self a.

Definition mbind {A B : Type} (m : M A) (k : A -> M B) : M B :=
  fun self =>
    match m self with
    | Returned self' a => k a self'
    | Raised self' e => Raised self' e
    end.

Definition lift {A : Type} (r : result A) : M A :=
  fun self =>
    match r with
    | Ok a => Returned self a
    | Err e => Raised self e
    end.

Definition self_ : M instance := fun self => Returned self self.

Definition set_last_stat (s : option stat) : M unit :=
  fun self =>
    Returned {| last_interface := last_interface self;
                last_stat := s;
                last_time := last_time self |} tt.

Definition set_last_time (t : float) : M unit :=
  fun self =>
    Returned {| last_interface := last_interface self;
                last_stat := last_stat self;
                last_time := t |} tt.

Definition set_last_interface (i : option string) : M unit :=
  fun self =>
    Returned {| last_interface := i;
                last_stat := last_stat self;
                last_time := last_time self |} tt.

(** [try: body except exc: handler] *)
Definition try_except {A : Type} (body : M A) (exc : exn) (handler : M A) : M A :=
  fun self =>
    match body self with
    | Returned self' a => Returned self' a
    | Raised self' e =>
        if exn_eqb e exc then handler self' else Raised self' e
    end.

Notation "x <~ m ;; k" := (mbind m (fun x => k))
  (at level 61, m at next level, right associativity) : py_scope.
Notation "m ;;; k" := (mbind m (fun _ => k))
  (at level 61, right associativity) : py_scope.

(** The body of the loop over the paired rows. *)
Definition loop_body (timedelta : float) (deltas : PyDict.dict rates)
    (old new : list string) : result (PyDict.dict rates) :=
  n1 <- py_index new 1 ;;
  rx_new <- PyStr.py_int n1 ;;
  o1 <- py_index old 1 ;;
  rx_old <- PyStr.py_int o1 ;;
  n9 <- py_index new 9 ;;
  tx_new <- PyStr.py_int n9 ;;
  o9 <- py_index old 9 ;;
  tx_old <- PyStr.py_int o9 ;;
  down <- truediv_int (rx_new - rx_old) timedelta ;;
  up <- truediv_int (tx_new - tx_old) timedelta ;;
  name <- py_index new 0 ;;
  Ok (PyDict.set name {| total := fadd up down; up := up; down := down |} deltas).

Fixpoint for_each (timedelta : float) (pairs : list (list string * list string))
    (deltas : PyDict.dict rates) : result (PyDict.dict rates) :=
  match pairs with
  | [] => Ok deltas
  | (old, new) :: pairs' =>
      deltas' <- loop_body timedelta deltas old new ;;
      for_each timedelta pairs' deltas'
  end.

(** The values of [delta], [interface] and [hide] after the [try]. *)
Record sample : Set := mkSample {
  delta : option rates;
  interface : option string;
  hide : bool
}.

(** [bool(interface)]: [None] and the empty string are false. *)
Definition truthy_name (i : option string) : bool :=
  match i with
  | Some s => PyStr.truthy s
  | None => false
  end.

Definition total_of (deltas : PyDict.dict rates) (x : string) : result float :=
  d <- PyDict.get x deltas ;; Ok (total d).

(** [deltas[interface] if interface else None] *)
Definition delta_of (deltas : PyDict.dict rates) (interface : option string)
  : result (option rates) :=
  match interface with
  | Some i =>
      if PyStr.truthy i then d <- PyDict.get i deltas ;; Ok (Some d) else Ok None
  | None => Ok None
  end.

(** The choice between the interface of the largest total and the last
    reported one: the value of [interface] and of [hide]. *)
Definition choose (cfg : config) (selected : string) (t : float)
  : M (option string * bool) :=
  if eq_zero t
  then self <~ self_ ;; mret (last_interface self, hide_if_zero cfg)
  else set_last_interface (Some selected) ;;; mret (Some selected, false).

(** Lines 121 to 138: the instance takes a new snapshot and the time, then
    the interface to report is chosen among the keys of [deltas]. *)
Definition report (cfg : config) (w : io) (deltas : PyDict.dict rates) : M sample :=
  s <~ lift (_get_stat cfg (read2 w)) ;;
  set_last_stat s ;;;
  set_last_time (time2 w) ;;;
  selected <~ lift (py_max (total_of deltas) (PyDict.keys deltas)) ;;
  t <~ lift (total_of deltas selected) ;;
  ih <~ choose cfg selected t ;;
  d <~ lift (delta_of deltas (fst ih)) ;;
  mret {| delta := d; interface := fst ih; hide := snd ih |}.

(** Lines 108 to 138, the body of the [try]. *)
Definition try_body (cfg : config) (w : io) (ns : option stat) : M sample :=
  self <~ self_ ;;
  let timedelta := fsub (time1 w) (last_time self) in
  pairs <~ lift (py_zip (last_stat self) ns) ;;
  deltas <~ lift (for_each timedelta pairs []) ;;
  report cfg w deltas.

Definition handler (cfg : config) : M sample :=
  mret {| delta := None; interface := None; hide := hide_if_zero cfg |}.

(** Lines 105 to 143 of the method: from the first read to the end of the
    [try] statement. *)
Definition currentSpeed_sample (cfg : config) (w : io) : M sample :=
  ns <~ lift (_get_stat cfg (read1 w)) ;;
  try_except (try_body cfg w ns) TypeError (handler cfg).

(** [__init__] runs before the configuration is applied: the first snapshot
    is filtered by the class attributes. *)
Definition __init__ (devfile : option (list string)) (now : float) : result instance :=
  s <- _get_stat default_config devfile ;;
  Ok {| last_interface := None; last_stat := s; last_time := now |}.

(** ** The response *)

Section Response.

(** The host's services: the deadline of the cache, the rendering of one
    value ([_format_value], which only calls the host) and of a template. *)
Variable deadline : Type.
Variable time_in : Z -> deadline.
Variable _format_value : float -> string.
Variable safe_format : string -> list (string * string) -> string.

Record response : Type := mkResponse {
  cached_until : deadline;
  full_text : string
}.

(** Lines 145 to 162; the calls that set the colours return nothing. *)
Definition respond (cfg : config) (s : sample) : result response :=
  text <-
    (if hide s then Ok EmptyString
     else if negb (truthy_name (interface s)) then Ok (format_no_connection cfg)
     else match delta s with
          | None => Err TypeError
          | Some d =>
              Ok (safe_format (format cfg)
                    [("down", _format_value (down d));
                     ("total", _format_value (total d));
                     ("up", _format_value (up d));
                     ("interface",
                      PyStr.drop_last (match interface s with
                                       | Some i => i
                                       | None => EmptyString
                                       end))])
          end) ;;
  Ok {| cached_until := time_in (cache_timeout cfg); full_text := text |}.

Definition currentSpeed (cfg : config) (w : io) : M response :=
  s <~ currentSpeed_sample cfg w ;;
  lift (respond cfg s).

End Response.


(** ** [post_config_hook]: the template of a value *)

(** The attributes [format_value] and [precision], [None] or set, and
    [left_align], which exists once the hook has set it. *)
Record value_format : Set := mkValueFormat {
  format_value : option string;
  precision : option Z;
  left_align : option Z
}.

(** ["%s" % n] for an int. *)
Definition str_of_int (n : Z) : string := NilZero.string_of_int (Z.to_int n).

Definition default_format_value : string :=
  "[\?min_length=11 {value:.1f} {unit}]".

Definition both_set_notice : string :=
  "net_rate.py: Both format_value and precision are set. precision will be ignored".

(** Lines 90 to 102 of [post_config_hook]: the attributes as the hook leaves
    them and the notices it sends to the user. *)
Definition post_config_hook_value (v : value_format) : value_format * list string :=
  match format_value v with
  | None =>
      match precision v with
      | Some p =>
          let la := if 0 <? p then 3 + 1 + p + 1 + 5 else 3 + 1 + 5 in
          ({| format_value :=
                Some ("[\?min_length=" ++ str_of_int la ++ " {value:."
                        ++ str_of_int p ++ "f} {unit}]");
              precision := Some p;
              left_align := Some la |}, [])
      | None =>
          ({| format_value := Some default_format_value;
              precision := None;
              left_align := left_align v |}, [])
      end
  | Some _ =>
      match precision v with
      | Some _ => (v, [both_set_notice])
      | None => (v, [])
      end
  end.

(** ** Vocabulary of the statements *)

(** The instance once [report] has taken the new snapshot and the time. *)
Definition advanced (self : instance) (s : option stat) (t : float) : instance :=
  {| last_interface := last_interface self; last_stat := s; last_time := t |}.

Definition reported (self : instance) (i : string) : instance :=
  {| last_interface := Some i; last_stat := last_stat self; last_time := last_time self |}.

(** The cycle is paired: the first read gave a snapshot, it and the stored
    one are sequences, and the loop over the pairs ended with [deltas]. *)
Definition paired (cfg : config) (w : io) (self : instance)
    (deltas : PyDict.dict rates) : Prop :=
  exists ns pairs,
    _get_stat cfg (read1 w) = Ok ns /\
    py_zip (last_stat self) ns = Ok pairs /\
    for_each (fsub (time1 w) (last_time self)) pairs [] = Ok deltas.

(** The counters of a row that the loop reads: [int(row[1])], [int(row[9])]. *)
Definition bytesReceived (row : list string) : result Z :=
  s <- py_index row 1 ;; PyStr.py_int s.

Definition bytesSent (row : list string) : result Z :=
  s <- py_index row 9 ;; PyStr.py_int s.

(** The answer of the handler: no rates, no interface. *)
Definition NoData (cfg : config) : sample :=
  {| delta := None; interface := None; hide := hide_if_zero cfg |}.

(** A sample without rates; it renders as the empty string or as
    [format_no_connection]. *)
Definition no_data (s : sample) : Prop :=
  delta s = None /\ truthy_name (interface s) = false.

(** A string without white space, and a run of [n] spaces. *)
Fixpoint no_space (s : string) : bool :=
  match s with
  | EmptyString => true
  | String c s' => negb (PyStr.is_space c) && no_space s'
  end.

Fixpoint spaces (n : nat) : string :=
  match n with
  | O => EmptyString
  | S n' => String " " (spaces n')
  end.

(** The counters as the specification words them: fields 1 and 9, counted
    from 0 among the numeric fields that follow the name. *)
Definition spec_bytesReceived (row : list string) : result Z :=
  s <- py_index (tl row) 1 ;; PyStr.py_int s.

Definition spec_bytesSent (row : list string) : result Z :=
  s <- py_index (tl row) 9 ;; PyStr.py_int s.

(** A string in which the character [c] does not occur. *)
Fixpoint no_char (c : ascii) (s : string) : bool :=
  match s with
  | EmptyString => true
  | String a s' => negb (Ascii.eqb a c) && no_char c s'
  end.

(** The instance as a call leaves it, returning or raising. *)
Definition instance_of {A : Type} (o : outcome A) : instance :=
  match o with
  | Returned self _ => self
  | Raised self _ => self
  end.

(** The instances of a running module: the one [__init__] builds, and the
    one any call of [currentSpeed] leaves, whether it returns or raises. *)
Inductive running (cfg : config) : instance -> Prop :=
| running_init devfile now self :
    __init__ devfile now = Ok self -> running cfg self
| running_call w self :
    running cfg self -> running cfg (instance_of (currentSpeed_sample cfg w self)).

(** ** Example data *)

Definition nl : string := String "010"%char EmptyString.

Definition header : list string :=
  ["Inter-|   Receive                |  Transmit" ++ nl;
   " face |bytes    packets errs drop|bytes    packets errs drop" ++ nl].

(** A row of the counter file with the given name, received and sent bytes. *)
Definition row_line (name rx tx : string) : string :=
  "  " ++ name ++ ": " ++ rx ++ " 0 0 0 0 0 0 0 " ++ tx ++ " 0 0 0 0 0 0 0" ++ nl.

(** The words of such a row. *)
Definition row (name rx tx : string) : list string :=
  words (row_line name rx tx).

Definition configured : config := post_config_hook default_config.

(** An instance whose last snapshot has the row of [eth0], taken at 10 s. *)
Definition eth0_at_10 : instance :=
  {| last_interface := None;
     last_stat := Some [row "eth0" "1000" "200"];
     last_time := of_int 10 |}.

(** A call at 12 s during which the counter file cannot be opened. *)
Definition missing_devfile : io :=
  {| read1 := None; time1 := of_int 12; read2 := None; time2 := of_int 12 |}.

(** A call at the very time of the stored snapshot. *)
Definition same_instant : io :=
  {| read1 := Some (header ++ [row_line "eth0" "2000" "700"])%list;
     time1 := of_int 10;
     read2 := Some (header ++ [row_line "eth0" "2000" "700"])%list;
     time2 := of_int 10 |}.

(** A call at 11 s, the file read again at 12 s. *)
Definition one_second_later : io :=
  {| read1 := Some (header ++ [row_line "eth0" "2000" "700"])%list;
     time1 := of_int 11;
     read2 := Some (header ++ [row_line "eth0" "2000" "700"])%list;
     time2 := of_int 12 |}.

(** Two interfaces in the stored snapshot, a third one in the next read. *)
Definition two_interfaces : instance :=
  {| last_interface := None;
     last_stat := Some [row "eth0" "1000" "200"; row "wlan0" "500" "500"];
     last_time := of_int 10 |}.

Definition three_lines : list string :=
  (header ++ [row_line "eth0" "2000" "700"; row_line "wlan0" "500" "500";
              row_line "tun0" "10" "10"])%list.

Definition third_appears : io :=
  {| read1 := Some three_lines; time1 := of_int 11;
     read2 := Some three_lines; time2 := of_int 11 |}.

(** The cycle after: the three interfaces again, [tun0] has received. *)
Definition after_third_lines : list string :=
  (header ++ [row_line "eth0" "2000" "700"; row_line "wlan0" "500" "500";
              row_line "tun0" "310" "10"])%list.

Definition after_third : io :=
  {| read1 := Some after_third_lines; time1 := of_int 12;
     read2 := Some after_third_lines; time2 := of_int 12 |}.

(** [eth0] is idle and the counter of [wlan0], reported last, went down. *)
Definition wlan0_reported : instance :=
  {| last_interface := Some "wlan0:";
     last_stat := Some [row "eth0" "1000" "200"; row "wlan0" "500" "500"];
     last_time := of_int 10 |}.

Definition wlan0_reset_lines : list string :=
  (header ++ [row_line "eth0" "1000" "200"; row_line "wlan0" "400" "500"])%list.

Definition wlan0_reset : io :=
  {| read1 := Some wlan0_reset_lines; time1 := of_int 11;
     read2 := Some wlan0_reset_lines; time2 := of_int 11 |}.

(** [wlan0], reported last, is gone and [eth0] is idle. *)
Definition wlan0_gone_lines : list string :=
  (header ++ [row_line "eth0" "1000" "200"])%list.

Definition wlan0_gone : io :=
  {| read1 := Some wlan0_gone_lines; time1 := of_int 11;
     read2 := Some wlan0_gone_lines; time2 := of_int 11 |}.

(** Two reads of the row of [eth0] with every counter at work: bytes,
    then packets, received and sent. *)
Definition eth0_before : list string :=
  words ("  eth0: 1000 10 0 0 0 0 0 0 200 20 0 0 0 0 0 0" ++ nl).

Definition eth0_after : list string :=
  words ("  eth0: 2000 30 0 0 0 0 0 0 700 50 0 0 0 0 0 0" ++ nl).

(** [eth0] and [wlan0] at rest in the stored snapshot; a second later
    [eth0] has received 500 bytes and [wlan0] 1500, and [lo] is in the file. *)
Definition two_at_rest : instance :=
  {| last_interface := None;
     last_stat := Some [row "eth0" "0" "0"; row "wlan0" "0" "0"];
     last_time := of_int 10 |}.

Definition both_active_lines : list string :=
  (header ++ [row_line "lo" "900" "900"; row_line "eth0" "500" "0";
              row_line "wlan0" "1500" "0"])%list.

Definition both_active : io :=
  {| read1 := Some both_active_lines; time1 := of_int 11;
     read2 := Some both_active_lines; time2 := of_int 11 |}.

Definition both_active_deltas : PyDict.dict rates :=
  [("eth0:", {| total := of_int 500; up := of_int 0; down := of_int 500 |});
   ("wlan0:", {| total := of_int 1500; up := of_int 0; down := of_int 1500 |})].

(** A call a second after [eth0_at_10] during which nothing has moved. *)
Definition idle_second : io :=
  {| read1 := Some (header ++ [row_line "eth0" "1000" "200"])%list;
     time1 := of_int 11;
     read2 := Some (header ++ [row_line "eth0" "1000" "200"])%list;
     time2 := of_int 11 |}.

(** The file when the module is built, at 9 s, and the call at 10 s during
    which [wlan0] has received 100 bytes: it leaves [wlan0_reported]. *)
Definition wlan0_start_lines : list string :=
  (header ++ [row_line "eth0" "1000" "200"; row_line "wlan0" "400" "500"])%list.

Definition wlan0_active_lines : list string :=
  (header ++ [row_line "eth0" "1000" "200"; row_line "wlan0" "500" "500"])%list.

Definition wlan0_active : io :=
  {| read1 := Some wlan0_active_lines; time1 := of_int 10;
     read2 := Some wlan0_active_lines; time2 := of_int 10 |}.

(** The rates of the cycle [wlan0_reset] from [wlan0_reported]. *)
Definition wlan0_reset_deltas : PyDict.dict rates :=
  [("eth0:", {| total := of_int 0; up := of_int 0; down := of_int 0 |});
   ("wlan0:", {| total := of_int (-100); up := of_int 0; down := of_int (-100) |})].


(** * Properties *)

(** ** Results *)

Lemma rbind_Ok {A B} (m : result A) (k : A -> result B) (b : B) :
  rbind m k = Ok b -> exists a, m = Ok a /\ k a = Ok b.
Proof. destruct m as [a|e]; simpl; intros H; [eauto | discriminate]. Qed.

Lemma rbind_Err {A B} (m : result A) (k : A -> result B) (e : exn) :
  rbind m k = Err e -> m = Err e \/ exists a, m = Ok a /\ k a = Err e.
Proof.
  destruct m as [a|e']; simpl; intros H; [right; eauto | left].
  injection H as ->. reflexivity.
Qed.

(** ** The shape of a call *)

Lemma exn_eqb_eq (a b : exn) : exn_eqb a b = true <-> a = b.
Proof. destruct a, b; simpl; split; intros H; congruence. Qed.

Lemma py_index_err {A} (l : list A) (i : nat) (e : exn) :
  py_index l i = Err e -> e = IndexError.
Proof. unfold py_index. destruct (nth_error l i); congruence. Qed.

Lemma py_int_err (s : string) (e : exn) :
  PyStr.py_int s = Err e -> e = ValueError.
Proof.
  unfold PyStr.py_int.
  match goal with |- context [match ?p with Some _ => _ | None => _ end] =>
    destruct p end; congruence.
Qed.

Lemma truediv_int_err (n : Z) (d : float) (e : exn) :
  truediv_int n d = Err e -> e = OverflowError \/ e = ZeroDivisionError.
Proof.
  unfold truediv_int.
  destruct (is_inf (of_int n)); [intros [= <-]; auto |].
  destruct (is_zero d); [intros [= <-]; auto | discriminate].
Qed.

(** The loop raises no [TypeError]. *)
Lemma loop_body_err timedelta deltas old new e :
  loop_body timedelta deltas old new = Err e -> e <> TypeError.
Proof.
  unfold loop_body. intros H.
  repeat match goal with
  | H : rbind _ _ = Err _ |- _ =>
      apply rbind_Err in H; destruct H as [H | (? & _ & H)]
  | H : py_index _ _ = Err _ |- _ => apply py_index_err in H; subst; discriminate
  | H : PyStr.py_int _ = Err _ |- _ => apply py_int_err in H; subst; discriminate
  | H : truediv_int _ _ = Err _ |- _ =>
      apply truediv_int_err in H; destruct H; subst; discriminate
  | H : Ok _ = Err _ |- _ => discriminate H
  end.
Qed.

Lemma for_each_err timedelta pairs deltas e :
  for_each timedelta pairs deltas = Err e -> e <> TypeError.
Proof.
  revert deltas. induction pairs as [|[old new] pairs IH]; simpl; intros deltas H.
  - discriminate.
  - apply rbind_Err in H. destruct H as [H | (d' & _ & H)].
    + eapply loop_body_err; eauto.
    + eapply IH; eauto.
Qed.

Lemma get_stat_err cfg devfile e :
  _get_stat cfg devfile = Err e -> e = IOError /\ devfile = None.
Proof. unfold _get_stat. destruct devfile; [discriminate | intros [= <-]; auto]. Qed.

Lemma get_err {V} (k : string) (d : PyDict.dict V) e :
  PyDict.get k d = Err e -> e = KeyError /\ PyDict.find k d = None.
Proof. unfold PyDict.get. destruct (PyDict.find k d); [discriminate | intros [= <-]; auto]. Qed.

Lemma total_of_err deltas x e :
  total_of deltas x = Err e -> e = KeyError.
Proof.
  unfold total_of. intros H. apply rbind_Err in H.
  destruct H as [H | (? & _ & H)]; [apply get_err in H; tauto | discriminate].
Qed.

Lemma max_loop_err {A} (key : A -> result float) cur curk l e :
  max_loop key cur curk l = Err e -> exists y, In y l /\ key y = Err e.
Proof.
  revert cur curk. induction l as [|y l IH]; simpl; intros cur curk H.
  - discriminate.
  - destruct (key y) as [ky|e'] eqn:Ky; simpl in H.
    + destruct (fgt ky curk); apply IH in H; destruct H as (z & Hz & Hk); eauto.
    + injection H as ->. eauto.
Qed.

Lemma py_max_err {A} (key : A -> result float) l e :
  py_max key l = Err e -> l = [] /\ e = ValueError \/ exists y, In y l /\ key y = Err e.
Proof.
  destruct l as [|x l]; simpl; intros H.
  - left. split; congruence.
  - right. destruct (key x) as [kx|e'] eqn:Kx; simpl in H.
    + apply max_loop_err in H. destruct H as (z & Hz & Hk); eauto.
    + injection H as ->. eauto.
Qed.

Lemma delta_of_err deltas i e :
  delta_of deltas i = Err e -> e = KeyError.
Proof.
  unfold delta_of. destruct i as [i|]; [| discriminate].
  destruct (PyStr.truthy i); [| discriminate].
  intros H. apply rbind_Err in H.
  destruct H as [H | (? & _ & H)]; [apply get_err in H; tauto | discriminate].
Qed.

(** Closed goals: conjunctions of equations that evaluate. *)
Ltac by_computation := repeat apply conj; vm_compute; reflexivity.

Ltac run_M :=
  unfold mbind, lift, mret, self_, set_last_stat, set_last_time,
    set_last_interface; simpl.

Lemma report_eq cfg w deltas self s2 selected t :
  _get_stat cfg (read2 w) = Ok s2 ->
  py_max (total_of deltas) (PyDict.keys deltas) = Ok selected ->
  total_of deltas selected = Ok t ->
  report cfg w deltas self =
    let self2 := advanced self s2 (time2 w) in
    if eq_zero t
    then match delta_of deltas (last_interface self) with
         | Ok d => Returned self2
                     {| delta := d; interface := last_interface self;
                        hide := hide_if_zero cfg |}
         | Err e => Raised self2 e
         end
    else match delta_of deltas (Some selected) with
         | Ok d => Returned (reported self2 selected)
                     {| delta := d; interface := Some selected; hide := false |}
         | Err e => Raised (reported self2 selected) e
         end.
Proof.
  intros Hs Hmax Ht. unfold report, choose. run_M.
  rewrite Hs, Hmax, Ht. simpl.
  destruct (eq_zero t); simpl.
  - destruct (delta_of deltas (last_interface self)); reflexivity.
  - destruct (PyStr.truthy selected); [| reflexivity].
    destruct (PyDict.get selected deltas); reflexivity.
Qed.

Lemma report_read_fails cfg w deltas self :
  read2 w = None -> report cfg w deltas self = Raised self IOError.
Proof. intros H. unfold report. run_M. rewrite H. reflexivity. Qed.

Lemma report_empty cfg w self s2 :
  _get_stat cfg (read2 w) = Ok s2 ->
  report cfg w [] self = Raised (advanced self s2 (time2 w)) ValueError.
Proof. intros H. unfold report. run_M. rewrite H. reflexivity. Qed.

(** [report] raises no [TypeError]. *)
Lemma report_err cfg w deltas self self' e :
  report cfg w deltas self = Raised self' e -> e <> TypeError.
Proof.
  destruct (_get_stat cfg (read2 w)) as [s2|e1] eqn:Hs.
  2:{ apply get_stat_err in Hs. destruct Hs as [_ Hs].
      rewrite (report_read_fails _ _ _ _ Hs). intros [= _ <-]. discriminate. }
  destruct (py_max (total_of deltas) (PyDict.keys deltas)) as [sel|e2] eqn:Hmax.
  2:{ unfold report. run_M. rewrite Hs, Hmax. simpl. intros [= _ <-].
      apply py_max_err in Hmax.
      destruct Hmax as [[_ ->] | (y & _ & Hy)]; [discriminate |].
      apply total_of_err in Hy; subst; discriminate. }
  destruct (total_of deltas sel) as [t|e3] eqn:Ht.
  2:{ unfold report. run_M. rewrite Hs, Hmax, Ht. simpl. intros [= _ <-].
      apply total_of_err in Ht; subst; discriminate. }
  rewrite (report_eq _ _ _ _ _ _ _ Hs Hmax Ht). cbv zeta.
  destruct (eq_zero t).
  - destruct (delta_of deltas (last_interface self)) as [d|e4] eqn:Hd;
      [discriminate |]. intros [= _ <-].
    apply delta_of_err in Hd; subst; discriminate.
  - destruct (delta_of deltas (Some sel)) as [d|e4] eqn:Hd;
      [discriminate |]. intros [= _ <-].
    apply delta_of_err in Hd; subst; discriminate.
Qed.

(** The three ways a call can go: the first read fails; a snapshot is
    [None] and the handler answers; the rows are paired. *)
Lemma currentSpeed_sample_read_fails cfg w self :
  read1 w = None -> currentSpeed_sample cfg w self = Raised self IOError.
Proof. intros H. unfold currentSpeed_sample. run_M. rewrite H. reflexivity. Qed.

Lemma currentSpeed_sample_unpaired cfg w self ns :
  _get_stat cfg (read1 w) = Ok ns ->
  py_zip (last_stat self) ns = Err TypeError ->
  currentSpeed_sample cfg w self =
    Returned self {| delta := None; interface := None; hide := hide_if_zero cfg |}.
Proof.
  intros Hns Hz. unfold currentSpeed_sample, try_except, try_body, handler. run_M.
  rewrite Hns. simpl. rewrite Hz. reflexivity.
Qed.

Lemma currentSpeed_sample_paired cfg w self ns pairs :
  _get_stat cfg (read1 w) = Ok ns ->
  py_zip (last_stat self) ns = Ok pairs ->
  currentSpeed_sample cfg w self =
    match for_each (fsub (time1 w) (last_time self)) pairs [] with
    | Ok deltas => report cfg w deltas self
    | Err e => Raised self e
    end.
Proof.
  intros Hns Hz. unfold currentSpeed_sample, try_except, try_body. run_M.
  rewrite Hns. simpl. rewrite Hz.
  destruct (for_each _ pairs []) as [deltas|e] eqn:Hl.
  - destruct (report cfg w deltas self) as [self' s|self' e] eqn:Hr; [reflexivity |].
    apply report_err in Hr.
    destruct (exn_eqb e TypeError) eqn:He; [| reflexivity].
    apply exn_eqb_eq in He. contradiction.
  - apply for_each_err in Hl.
    destruct (exn_eqb e TypeError) eqn:He; [| reflexivity].
    apply exn_eqb_eq in He. contradiction.
Qed.

Lemma currentSpeed_sample_report cfg w self deltas :
  paired cfg w self deltas ->
  currentSpeed_sample cfg w self = report cfg w deltas self.
Proof.
  intros (ns & pairs & Hns & Hz & Hl).
  rewrite (currentSpeed_sample_paired _ _ _ _ _ Hns Hz), Hl. reflexivity.
Qed.

Lemma currentSpeed_raises deadline time_in fv sf cfg w self self' e :
  currentSpeed_sample cfg w self = Raised self' e ->
  currentSpeed deadline time_in fv sf cfg w self = Raised self' e.
Proof. intros H. unfold currentSpeed, mbind. rewrite H. reflexivity. Qed.

Lemma py_zip_err {A B} (a : option (list A)) (b : option (list B)) e :
  py_zip a b = Err e -> e = TypeError /\ (a = None \/ b = None).
Proof. destruct a, b; simpl; intros [= <-] || discriminate; auto. Qed.

(** ** The rows and the keys of [deltas] *)

Lemma words_truthy (x : string) : Forall (fun w => PyStr.truthy w = true) (words x).
Proof. apply Forall_forall. intros w Hw. apply filter_In in Hw. tauto. Qed.

Lemma get_stat_rows cfg devfile rows :
  _get_stat cfg devfile = Ok (Some rows) ->
  Forall (Forall (fun w => PyStr.truthy w = true)) rows.
Proof.
  destruct devfile as [lines|]; simpl; [| discriminate].
  intros [= <-]. apply Forall_forall. intros r Hr.
  apply in_map_iff in Hr. destruct Hr as (x & <- & _). apply words_truthy.
Qed.

Lemma set_keys {V} (name : string) (v : V) (d : PyDict.dict V) (k : string) :
  In k (PyDict.keys (PyDict.set name v d)) -> k = name \/ In k (PyDict.keys d).
Proof.
  induction d as [|[k' v'] d IH]; simpl.
  - intros [H | []]; auto.
  - destruct (String.eqb name k') eqn:E; simpl.
    + tauto.
    + intros [H | H]; [tauto |]. apply IH in H. tauto.
Qed.

Lemma loop_body_counters timedelta deltas old new :
  loop_body timedelta deltas old new =
    (rx_new <- bytesReceived new ;;
     rx_old <- bytesReceived old ;;
     tx_new <- bytesSent new ;;
     tx_old <- bytesSent old ;;
     down <- truediv_int (rx_new - rx_old) timedelta ;;
     up <- truediv_int (tx_new - tx_old) timedelta ;;
     name <- py_index new 0 ;;
     Ok (PyDict.set name {| total := fadd up down; up := up; down := down |} deltas)).
Proof.
  unfold loop_body, bytesReceived, bytesSent.
  destruct (py_index new 1) as [n1|]; simpl; [| reflexivity].
  destruct (PyStr.py_int n1); simpl; [| reflexivity].
  destruct (py_index old 1) as [o1|]; simpl; [| reflexivity].
  destruct (PyStr.py_int o1); simpl; [| reflexivity].
  destruct (py_index new 9) as [n9|]; simpl; [| reflexivity].
  destruct (PyStr.py_int n9); simpl; [| reflexivity].
  destruct (py_index old 9) as [o9|]; simpl; reflexivity.
Qed.

(** What a round of the loop that ends well has done. *)
Lemma loop_body_Ok timedelta deltas old new deltas' :
  loop_body timedelta deltas old new = Ok deltas' ->
  exists rx_new rx_old tx_new tx_old down up name,
    bytesReceived new = Ok rx_new /\ bytesReceived old = Ok rx_old /\
    bytesSent new = Ok tx_new /\ bytesSent old = Ok tx_old /\
    truediv_int (rx_new - rx_old) timedelta = Ok down /\
    truediv_int (tx_new - tx_old) timedelta = Ok up /\
    nth_error new 0 = Some name /\
    deltas' = PyDict.set name {| total := fadd up down; up := up; down := down |} deltas.
Proof.
  rewrite loop_body_counters. intros H.
  repeat match goal with
  | H : rbind _ _ = Ok _ |- _ =>
      apply rbind_Ok in H; let x := fresh "x" in destruct H as (x & ? & H)
  end.
  injection H as <-.
  match goal with H : py_index new 0 = Ok ?n |- _ =>
    unfold py_index in H; destruct (nth_error new 0) eqn:E; [| discriminate];
    injection H as -> end.
  repeat eexists; eauto.
Qed.

Lemma loop_body_keys timedelta deltas old new deltas' :
  loop_body timedelta deltas old new = Ok deltas' ->
  Forall (fun w => PyStr.truthy w = true) new ->
  forall k, In k (PyDict.keys deltas') ->
    In k (PyDict.keys deltas) \/ PyStr.truthy k = true.
Proof.
  intros H Hnew k Hk.
  apply loop_body_Ok in H.
  destruct H as (? & ? & ? & ? & dn & u & name & _ & _ & _ & _ & _ & _ & Hn & ->).
  apply set_keys in Hk. destruct Hk as [-> | Hk]; [right | tauto].
  apply nth_error_In in Hn. rewrite Forall_forall in Hnew. auto.
Qed.

Lemma for_each_keys timedelta pairs deltas deltas' :
  for_each timedelta pairs deltas = Ok deltas' ->
  (forall old new, In (old, new) pairs -> Forall (fun w => PyStr.truthy w = true) new) ->
  forall k, In k (PyDict.keys deltas') ->
    In k (PyDict.keys deltas) \/ PyStr.truthy k = true.
Proof.
  revert deltas. induction pairs as [|[old new] pairs IH]; simpl; intros deltas H Hp k Hk.
  - injection H as <-. tauto.
  - apply rbind_Ok in H. destruct H as (d1 & H1 & H2).
    destruct (IH _ H2 (fun o n Hin => Hp o n (or_intror Hin)) k Hk) as [Hk1 | Hk1];
      [| tauto].
    eapply loop_body_keys; eauto.
Qed.

(** In a paired cycle every key of [deltas] is a word of a row: not empty. *)
Lemma paired_keys_truthy cfg w self deltas :
  paired cfg w self deltas ->
  forall k, In k (PyDict.keys deltas) -> PyStr.truthy k = true.
Proof.
  intros (ns & pairs & Hns & Hz & Hl) k Hk.
  destruct (last_stat self) as [olds|], ns as [news|]; simpl in Hz; try discriminate.
  injection Hz as <-.
  apply get_stat_rows in Hns. rewrite Forall_forall in Hns.
  destruct (for_each_keys _ _ _ _ Hl) with (k := k) as [[] | Ht]; auto.
  intros old new Hin. apply in_combine_r in Hin. auto.
Qed.

Lemma max_loop_In {A} (key : A -> result float) cur curk l x :
  max_loop key cur curk l = Ok x -> x = cur \/ In x l.
Proof.
  revert cur curk. induction l as [|y l IH]; simpl; intros cur curk H.
  - injection H as <-. auto.
  - apply rbind_Ok in H. destruct H as (ky & _ & H).
    destruct (fgt ky curk); apply IH in H; destruct H; subst; auto.
Qed.

Lemma py_max_In {A} (key : A -> result float) l x :
  py_max key l = Ok x -> In x l.
Proof.
  destruct l as [|y l]; simpl; [discriminate |]. intros H.
  apply rbind_Ok in H. destruct H as (ky & _ & H).
  apply max_loop_In in H. destruct H; subst; auto.
Qed.

Lemma total_of_Ok deltas x t :
  total_of deltas x = Ok t -> exists d, PyDict.get x deltas = Ok d /\ total d = t.
Proof.
  unfold total_of. intros H. apply rbind_Ok in H.
  destruct H as (d & Hd & [= <-]). eauto.
Qed.

(** ** An unreadable counter file *)

(** C5, counterexample: with the default configuration and a counter file
    that cannot be opened, the call raises [IOError] and returns no sample. *)
Lemma unreadable_source_example :
  currentSpeed_sample configured missing_devfile eth0_at_10
    = Raised eth0_at_10 IOError /\
  ~ (exists self' s,
       currentSpeed_sample configured missing_devfile eth0_at_10 = Returned self' s).
Proof.
  split; [vm_compute; reflexivity |].
  intros (self' & s & H). vm_compute in H. discriminate H.
Qed.

(** C5, as amended: when the counter file cannot be read, at the first read
    of the call or at the second read of a paired cycle, the call is not
    answered with a sample: [currentSpeed] ends with the [IOError] of [open],
    which no handler catches, and the instance is left as it was. *)
Theorem unreadable_source_propagates cfg w self :
  read1 w = None \/ (exists deltas, paired cfg w self deltas /\ read2 w = None) ->
  currentSpeed_sample cfg w self = Raised self IOError /\
  forall deadline time_in fv sf,
    currentSpeed deadline time_in fv sf cfg w self = Raised self IOError.
Proof.
  intros H.
  assert (E : currentSpeed_sample cfg w self = Raised self IOError).
  { destruct H as [H | (deltas & Hp & H)].
    - apply currentSpeed_sample_read_fails, H.
    - rewrite (currentSpeed_sample_report _ _ _ _ Hp).
      apply report_read_fails, H. }
  split; [exact E |]. intros. apply currentSpeed_raises, E.
Qed.

Lemma unreadable_source_propagates_witness :
  read1 missing_devfile = None /\
  currentSpeed_sample configured missing_devfile eth0_at_10
    = Raised eth0_at_10 IOError.
Proof.
  split; [reflexivity |].
  apply (unreadable_source_propagates configured missing_devfile eth0_at_10).
  left. reflexivity.
Defined.

(** ** No time between two samples *)

Lemma loop_body_zero timedelta deltas old new deltas' :
  is_zero timedelta = true ->
  loop_body timedelta deltas old new = Ok deltas' -> False.
Proof.
  intros Hz H. apply loop_body_Ok in H.
  destruct H as (a & b & ? & ? & dn & ? & ? & _ & _ & _ & _ & Hd & _).
  unfold truediv_int in Hd. rewrite Hz in Hd.
  destruct (is_inf (of_int (a - b))); discriminate.
Qed.

Lemma for_each_zero timedelta pairs deltas deltas' :
  is_zero timedelta = true ->
  for_each timedelta pairs deltas = Ok deltas' -> pairs = [] /\ deltas' = deltas.
Proof.
  intros Hz. destruct pairs as [|[old new] pairs]; simpl; intros H.
  - injection H as <-. auto.
  - apply rbind_Ok in H. destruct H as (d1 & H1 & _).
    destruct (loop_body_zero _ _ _ _ _ Hz H1).
Qed.

(** C3, counterexample: a call at the very time of the stored snapshot, with
    one paired interface, ends with [ZeroDivisionError] and not with
    [NoData]. *)
Lemma zero_elapsed_example :
  is_zero (fsub (time1 same_instant) (last_time eth0_at_10)) = true /\
  currentSpeed_sample configured same_instant eth0_at_10
    = Raised eth0_at_10 ZeroDivisionError /\
  ~ (exists self',
       currentSpeed_sample configured same_instant eth0_at_10
         = Returned self' (NoData configured)).
Proof.
  split; [vm_compute; reflexivity |]. split; [vm_compute; reflexivity |].
  intros (self' & H). vm_compute in H. discriminate H.
Qed.

(** C3, as amended: when the elapsed time is exactly zero the division is not
    guarded.  The call returns a sample only when the stored or the new
    snapshot is [None], and that sample is [NoData] with the instance
    unchanged; when both are sequences it ends with an unhandled error, which
    is [ZeroDivisionError] as soon as the first paired rows carry counters
    that can be read and converted.  No rate, hence no [inf] or [nan], is
    returned. *)
Theorem zero_elapsed_unguarded cfg w self :
  is_zero (fsub (time1 w) (last_time self)) = true ->
  (forall self' s,
     currentSpeed_sample cfg w self = Returned self' s ->
     self' = self /\ s = NoData cfg /\
     exists ns, _get_stat cfg (read1 w) = Ok ns /\
                py_zip (last_stat self) ns = Err TypeError) /\
  (forall old olds new news rx_new rx_old tx_new tx_old,
     last_stat self = Some (old :: olds) ->
     _get_stat cfg (read1 w) = Ok (Some (new :: news)) ->
     bytesReceived new = Ok rx_new -> bytesReceived old = Ok rx_old ->
     bytesSent new = Ok tx_new -> bytesSent old = Ok tx_old ->
     is_inf (of_int (rx_new - rx_old)) = false ->
     currentSpeed_sample cfg w self = Raised self ZeroDivisionError).
Proof.
  intros Hz. split.
  - intros self' s H.
    destruct (_get_stat cfg (read1 w)) as [ns|e] eqn:Hns.
    2:{ apply get_stat_err in Hns. destruct Hns as [_ Hns].
        rewrite (currentSpeed_sample_read_fails _ _ _ Hns) in H. discriminate. }
    destruct (py_zip (last_stat self) ns) as [pairs|e] eqn:Hzip.
    + rewrite (currentSpeed_sample_paired _ _ _ _ _ Hns Hzip) in H.
      destruct (for_each _ pairs []) as [deltas|e] eqn:Hl; [| discriminate].
      apply (for_each_zero _ _ _ _ Hz) in Hl. destruct Hl as [_ ->].
      destruct (_get_stat cfg (read2 w)) as [s2|e] eqn:Hs2.
      * rewrite (report_empty _ _ _ _ Hs2) in H. discriminate.
      * apply get_stat_err in Hs2. destruct Hs2 as [_ Hs2].
        rewrite (report_read_fails _ _ _ _ Hs2) in H. discriminate.
    + destruct (py_zip_err _ _ _ Hzip) as [-> _].
      rewrite (currentSpeed_sample_unpaired _ _ _ _ Hns Hzip) in H.
      injection H as <- <-. repeat split; eauto.
  - intros old olds new news rx_new rx_old tx_new tx_old Hold Hnew Hrn Hro Htn Hto Hinf.
    rewrite (currentSpeed_sample_paired cfg w self (Some (new :: news))
               (combine (old :: olds) (new :: news)) Hnew).
    2:{ rewrite Hold. reflexivity. }
    simpl. rewrite loop_body_counters, Hrn, Hro, Htn, Hto. simpl.
    unfold truediv_int. rewrite Hinf, Hz. reflexivity.
Qed.

Lemma zero_elapsed_unguarded_witness :
  is_zero (fsub (time1 same_instant) (last_time eth0_at_10)) = true /\
  currentSpeed_sample configured same_instant eth0_at_10
    = Raised eth0_at_10 ZeroDivisionError.
Proof.
  assert (Hz : is_zero (fsub (time1 same_instant) (last_time eth0_at_10)) = true)
    by (vm_compute; reflexivity).
  split; [exact Hz |].
  apply (proj2 (zero_elapsed_unguarded configured same_instant eth0_at_10 Hz)
           (row "eth0" "1000" "200") [] (row "eth0" "2000" "700") []
           2000 1000 700 200);
    vm_compute; reflexivity.
Defined.

(** ** The answers without rates and the state *)

Lemma report_Returned cfg w deltas self self' s :
  report cfg w deltas self = Returned self' s ->
  exists s2 selected t,
    _get_stat cfg (read2 w) = Ok s2 /\
    py_max (total_of deltas) (PyDict.keys deltas) = Ok selected /\
    total_of deltas selected = Ok t.
Proof.
  intros H.
  destruct (_get_stat cfg (read2 w)) as [s2|e1] eqn:Hs.
  2:{ apply get_stat_err in Hs. destruct Hs as [_ Hs].
      rewrite (report_read_fails _ _ _ _ Hs) in H. discriminate. }
  destruct (py_max (total_of deltas) (PyDict.keys deltas)) as [sel|e2] eqn:Hmax.
  2:{ unfold report in H. revert H. run_M. rewrite Hs, Hmax. discriminate. }
  destruct (total_of deltas sel) as [t|e3] eqn:Ht.
  2:{ unfold report in H. revert H. run_M. rewrite Hs, Hmax, Ht. discriminate. }
  exists s2, sel, t. auto.
Qed.

(** A call that returns went through the handler or through [report]. *)
Lemma currentSpeed_sample_Returned cfg w self self' s :
  currentSpeed_sample cfg w self = Returned self' s ->
  (self' = self /\ s = NoData cfg /\
   exists ns, _get_stat cfg (read1 w) = Ok ns /\
              py_zip (last_stat self) ns = Err TypeError) \/
  (exists deltas, paired cfg w self deltas /\
                  report cfg w deltas self = Returned self' s).
Proof.
  intros H.
  destruct (_get_stat cfg (read1 w)) as [ns|e] eqn:Hns.
  2:{ apply get_stat_err in Hns. destruct Hns as [_ Hns].
      rewrite (currentSpeed_sample_read_fails _ _ _ Hns) in H. discriminate. }
  destruct (py_zip (last_stat self) ns) as [pairs|e] eqn:Hzip.
  - right. rewrite (currentSpeed_sample_paired _ _ _ _ _ Hns Hzip) in H.
    destruct (for_each _ pairs []) as [deltas|e] eqn:Hl; [| discriminate].
    exists deltas. split; [| exact H]. exists ns, pairs. auto.
  - left. destruct (py_zip_err _ _ _ Hzip) as [-> _].
    rewrite (currentSpeed_sample_unpaired _ _ _ _ Hns Hzip) in H.
    injection H as <- <-. repeat split; eauto.
Qed.

Lemma delta_of_None deltas i :
  delta_of deltas i = Ok None -> truthy_name i = false.
Proof.
  unfold delta_of. destruct i as [i|]; simpl; [| reflexivity].
  destruct (PyStr.truthy i); [| reflexivity].
  destruct (PyDict.get i deltas); simpl; discriminate.
Qed.


(** ** Snapshots of different lengths *)

Lemma combine_truncated {A B} (l : list A) (l' : list B) :
  combine l l'
    = combine (firstn (Nat.min (List.length l) (List.length l')) l)
              (firstn (Nat.min (List.length l) (List.length l')) l').
Proof.
  rewrite <- combine_firstn. symmetry. apply firstn_all2.
  rewrite length_combine. apply Nat.le_refl.
Qed.

(** C1, counterexample: the stored snapshot has two interfaces and the new
    one three; the call answers with the rates of [eth0], computed from the
    first two rows of each, and not with [NoData]. *)
Lemma length_mismatch_example :
  last_stat two_interfaces
    = Some [row "eth0" "1000" "200"; row "wlan0" "500" "500"] /\
  _get_stat configured (read1 third_appears)
    = Ok (Some [row "eth0" "2000" "700"; row "wlan0" "500" "500";
                row "tun0" "10" "10"]) /\
  currentSpeed_sample configured third_appears two_interfaces
    = Returned
        {| last_interface := Some "eth0:";
           last_stat := Some [row "eth0" "2000" "700"; row "wlan0" "500" "500";
                              row "tun0" "10" "10"];
           last_time := of_int 11 |}
        {| delta := Some {| total := of_int 1500; up := of_int 500;
                            down := of_int 1000 |};
           interface := Some "eth0:";
           hide := false |}.
Proof. by_computation. Qed.

(** C1, as amended: when the stored and the new snapshot differ in length,
    the call does not answer [NoData] on that account: the rows are paired
    by position up to the length of the shorter snapshot, the rates are
    computed from that truncated pairing, and the call goes on as for equal
    lengths.  Whenever the call returns, the stored snapshot is the one of
    its second read and the stored time its second clock reading, so the next
    cycle is paired against that snapshot. *)
Theorem length_mismatch_truncates cfg w self old new :
  last_stat self = Some old ->
  _get_stat cfg (read1 w) = Ok (Some new) ->
  List.length old <> List.length new ->
  currentSpeed_sample cfg w self =
    match for_each (fsub (time1 w) (last_time self))
            (combine (firstn (Nat.min (List.length old) (List.length new)) old)
                     (firstn (Nat.min (List.length old) (List.length new)) new)) [] with
    | Ok deltas => report cfg w deltas self
    | Err e => Raised self e
    end /\
  List.length (combine (firstn (Nat.min (List.length old) (List.length new)) old)
                  (firstn (Nat.min (List.length old) (List.length new)) new))
    = Nat.min (List.length old) (List.length new) /\
  forall self' s,
    currentSpeed_sample cfg w self = Returned self' s ->
    exists s2, _get_stat cfg (read2 w) = Ok s2 /\
               last_stat self' = s2 /\ last_time self' = time2 w.
Proof.
  intros Hold Hnew _.
  assert (Hz : py_zip (last_stat self) (Some new) = Ok (combine old new))
    by (rewrite Hold; reflexivity).
  split; [| split].
  - rewrite (currentSpeed_sample_paired _ _ _ _ _ Hnew Hz).
    rewrite <- combine_truncated. reflexivity.
  - rewrite <- combine_truncated. apply length_combine.
  - intros self' s H.
    destruct (currentSpeed_sample_Returned _ _ _ _ _ H)
      as [(_ & _ & ns & Hns & Hzip) | (deltas & _ & Hr)].
    + rewrite Hnew in Hns. injection Hns as <-. rewrite Hz in Hzip. discriminate.
    + destruct (report_Returned _ _ _ _ _ _ Hr) as (s2 & sel & t & Hs & Hmax & Ht).
      rewrite (report_eq _ _ _ _ _ _ _ Hs Hmax Ht) in Hr. cbv zeta in Hr.
      exists s2. split; [exact Hs |].
      destruct (eq_zero t).
      * destruct (delta_of deltas (last_interface self)); [| discriminate].
        injection Hr as <- _. auto.
      * destruct (delta_of deltas (Some sel)); [| discriminate].
        injection Hr as <- _. auto.
Qed.

Lemma length_mismatch_truncates_witness :
  List.length [row "eth0" "1000" "200"; row "wlan0" "500" "500"]
    <> List.length [row "eth0" "2000" "700"; row "wlan0" "500" "500";
                    row "tun0" "10" "10"] /\
  forall self' s,
    currentSpeed_sample configured third_appears two_interfaces
      = Returned self' s ->
    exists s2, _get_stat configured (read2 third_appears) = Ok s2 /\
               last_stat self' = s2 /\ last_time self' = time2 third_appears.
Proof.
  assert (Hlen : List.length [row "eth0" "1000" "200"; row "wlan0" "500" "500"]
                 <> List.length [row "eth0" "2000" "700"; row "wlan0" "500" "500";
                                 row "tun0" "10" "10"]).
  { intros E. vm_compute in E. discriminate E. }
  split; [exact Hlen |].
  assert (Hold : last_stat two_interfaces
                 = Some [row "eth0" "1000" "200"; row "wlan0" "500" "500"])
    by reflexivity.
  assert (Hnew : _get_stat configured (read1 third_appears)
                 = Ok (Some [row "eth0" "2000" "700"; row "wlan0" "500" "500";
                             row "tun0" "10" "10"]))
    by (vm_compute; reflexivity).
  exact (proj2 (proj2 (length_mismatch_truncates configured third_appears
                         two_interfaces _ _ Hold Hnew Hlen))).
Defined.

(** The cycle after the one in which [tun0] appeared pairs three rows with
    three rows. *)
Lemma after_mismatch_example :
  let self1 :=
    {| last_interface := Some "eth0:";
       last_stat := Some [row "eth0" "2000" "700"; row "wlan0" "500" "500";
                          row "tun0" "10" "10"];
       last_time := of_int 11 |} in
  (exists s1,
     currentSpeed_sample configured third_appears two_interfaces
       = Returned self1 s1) /\
  currentSpeed_sample configured after_third self1
    = Returned
        {| last_interface := Some "tun0:";
           last_stat := Some [row "eth0" "2000" "700"; row "wlan0" "500" "500";
                              row "tun0" "310" "10"];
           last_time := of_int 12 |}
        {| delta := Some {| total := of_int 300; up := of_int 0;
                            down := of_int 300 |};
           interface := Some "tun0:";
           hide := false |}.
Proof.
  cbv zeta. split.
  - eexists. vm_compute. reflexivity.
  - vm_compute; reflexivity.
Qed.

(** ** The fall back to the last reported interface *)

Lemma find_keys {V} (k : string) (d : PyDict.dict V) :
  PyDict.find k d = None <-> ~ In k (PyDict.keys d).
Proof.
  induction d as [|[k' v'] d IH]; simpl.
  - tauto.
  - destruct (String.eqb_spec k k') as [-> | Hne].
    + split; [discriminate | intros H; exfalso; apply H; auto].
    + rewrite IH. split; [intros H [E | Hin]; [congruence | tauto] | tauto].
Qed.

(** C2, counterexample: [eth0] is idle, so the largest total is zero and
    [eth0] is the interface of the largest total; [wlan0] was reported last
    and its counter went down by 100 bytes.  The answer names [wlan0] and
    carries the rates of [wlan0], not those of [eth0]. *)
Lemma zero_fallback_example :
  let deltas :=
    [("eth0:", {| total := of_int 0; up := of_int 0; down := of_int 0 |});
     ("wlan0:", {| total := of_int (-100); up := of_int 0;
                   down := of_int (-100) |})] in
  paired configured wlan0_reset wlan0_reported deltas /\
  py_max (total_of deltas) (PyDict.keys deltas) = Ok "eth0:" /\
  total_of deltas "eth0:" = Ok (of_int 0) /\
  eq_zero (of_int 0) = true /\
  currentSpeed_sample configured wlan0_reset wlan0_reported
    = Returned
        (advanced wlan0_reported
           (Some [row "eth0" "1000" "200"; row "wlan0" "400" "500"]) (of_int 11))
        {| delta := Some {| total := of_int (-100); up := of_int 0;
                            down := of_int (-100) |};
           interface := Some "wlan0:";
           hide := false |} /\
  PyDict.get "wlan0:" deltas <> PyDict.get "eth0:" deltas.
Proof.
  cbv zeta. split; [| repeat apply conj; try (vm_compute; reflexivity)].
  - exists (Some [row "eth0" "1000" "200"; row "wlan0" "400" "500"]).
    exists (combine [row "eth0" "1000" "200"; row "wlan0" "500" "500"]
                    [row "eth0" "1000" "200"; row "wlan0" "400" "500"]).
    by_computation.
  - intros E. vm_compute in E. discriminate E.
Qed.

(** C2, as amended: in a paired cycle whose largest total is exactly zero,
    with a last reported interface that is a key of the cycle's rates, the
    answer names the last reported interface and carries the rates computed
    in this cycle for that same interface, looked up by its name; it hides
    exactly when [hide_if_zero] is set.  The stored snapshot and time are
    those of the second read; the last reported interface is unchanged. *)
Theorem zero_fallback cfg w self deltas s2 selected t name d :
  paired cfg w self deltas ->
  _get_stat cfg (read2 w) = Ok s2 ->
  py_max (total_of deltas) (PyDict.keys deltas) = Ok selected ->
  total_of deltas selected = Ok t ->
  eq_zero t = true ->
  last_interface self = Some name ->
  PyStr.truthy name = true ->
  PyDict.get name deltas = Ok d ->
  currentSpeed_sample cfg w self
    = Returned (advanced self s2 (time2 w))
        {| delta := Some d; interface := Some name; hide := hide_if_zero cfg |}.
Proof.
  intros Hp Hs Hmax Ht Hz Hlast Hname Hd.
  rewrite (currentSpeed_sample_report _ _ _ _ Hp).
  rewrite (report_eq _ _ _ _ _ _ _ Hs Hmax Ht). cbv zeta.
  rewrite Hz, Hlast. simpl. rewrite Hname, Hd. reflexivity.
Qed.

Lemma zero_fallback_witness :
  currentSpeed_sample configured wlan0_reset wlan0_reported
    = Returned
        (advanced wlan0_reported
           (Some [row "eth0" "1000" "200"; row "wlan0" "400" "500"])
           (time2 wlan0_reset))
        {| delta := Some {| total := of_int (-100); up := of_int 0;
                            down := of_int (-100) |};
           interface := Some "wlan0:";
           hide := hide_if_zero configured |}.
Proof.
  apply (zero_fallback configured wlan0_reset wlan0_reported
           [("eth0:", {| total := of_int 0; up := of_int 0; down := of_int 0 |});
            ("wlan0:", {| total := of_int (-100); up := of_int 0;
                          down := of_int (-100) |})]
           (Some [row "eth0" "1000" "200"; row "wlan0" "400" "500"])
           "eth0:" (of_int 0) "wlan0:").
  - exists (Some [row "eth0" "1000" "200"; row "wlan0" "400" "500"]).
    exists (combine [row "eth0" "1000" "200"; row "wlan0" "500" "500"]
                    [row "eth0" "1000" "200"; row "wlan0" "400" "500"]).
    by_computation.
  - vm_compute; reflexivity.
  - vm_compute; reflexivity.
  - vm_compute; reflexivity.
  - vm_compute; reflexivity.
  - reflexivity.
  - reflexivity.
  - vm_compute; reflexivity.
Defined.

(** C10: in a paired cycle whose largest total is exactly zero, with a last
    reported interface whose name is not a key of the cycle's rates, the
    lookup of the rates raises [KeyError], which no handler catches: the call
    returns nothing, and the instance keeps the snapshot and the time it had
    already stored.  The call returns a sample on this path only if the last
    reported interface is a key of the cycle's rates. *)
Theorem fallback_lookup_partial cfg w self deltas s2 selected t name :
  paired cfg w self deltas ->
  _get_stat cfg (read2 w) = Ok s2 ->
  py_max (total_of deltas) (PyDict.keys deltas) = Ok selected ->
  total_of deltas selected = Ok t ->
  eq_zero t = true ->
  last_interface self = Some name ->
  PyStr.truthy name = true ->
  (~ In name (PyDict.keys deltas) ->
   currentSpeed_sample cfg w self = Raised (advanced self s2 (time2 w)) KeyError /\
   forall deadline time_in fv sf,
     currentSpeed deadline time_in fv sf cfg w self
       = Raised (advanced self s2 (time2 w)) KeyError) /\
  (forall self' s,
     currentSpeed_sample cfg w self = Returned self' s ->
     In name (PyDict.keys deltas)).
Proof.
  intros Hp Hs Hmax Ht Hz Hlast Hname.
  assert (E : currentSpeed_sample cfg w self =
              match PyDict.get name deltas with
              | Ok d => Returned (advanced self s2 (time2 w))
                          {| delta := Some d; interface := Some name;
                             hide := hide_if_zero cfg |}
              | Err e => Raised (advanced self s2 (time2 w)) e
              end).
  { rewrite (currentSpeed_sample_report _ _ _ _ Hp).
    rewrite (report_eq _ _ _ _ _ _ _ Hs Hmax Ht). cbv zeta.
    rewrite Hz, Hlast. simpl. rewrite Hname.
    destruct (PyDict.get name deltas); reflexivity. }
  split.
  - intros Hnot. apply find_keys in Hnot.
    assert (E' : currentSpeed_sample cfg w self
                 = Raised (advanced self s2 (time2 w)) KeyError).
    { rewrite E. unfold PyDict.get. rewrite Hnot. reflexivity. }
    split; [exact E' |]. intros. apply currentSpeed_raises, E'.
  - intros self' s H. rewrite E in H.
    destruct (PyDict.find name deltas) as [v|] eqn:Hf.
    + destruct (in_dec string_dec name (PyDict.keys deltas)) as [Hin | Hnin];
        [exact Hin |].
      apply find_keys in Hnin. congruence.
    + unfold PyDict.get in H. rewrite Hf in H. discriminate.
Qed.

Lemma fallback_lookup_partial_witness :
  ~ In "wlan0:" (PyDict.keys
       [("eth0:", {| total := of_int 0; up := of_int 0; down := of_int 0 |})]) /\
  currentSpeed_sample configured wlan0_gone wlan0_reported
    = Raised (advanced wlan0_reported (Some [row "eth0" "1000" "200"])
                (time2 wlan0_gone)) KeyError.
Proof.
  assert (Hnot : ~ In "wlan0:" (PyDict.keys
            [("eth0:", {| total := of_int 0; up := of_int 0; down := of_int 0 |})])).
  { simpl. intros [E | []]. discriminate E. }
  split; [exact Hnot |].
  refine (proj1 (proj1 (fallback_lookup_partial configured wlan0_gone wlan0_reported
           [("eth0:", {| total := of_int 0; up := of_int 0; down := of_int 0 |})]
           (Some [row "eth0" "1000" "200"]) "eth0:" (of_int 0) "wlan0:"
           _ _ _ _ _ _ _) Hnot)).
  - exists (Some [row "eth0" "1000" "200"]).
    exists (combine [row "eth0" "1000" "200"; row "wlan0" "500" "500"]
                    [row "eth0" "1000" "200"]).
    by_computation.
  - vm_compute; reflexivity.
  - vm_compute; reflexivity.
  - vm_compute; reflexivity.
  - vm_compute; reflexivity.
  - reflexivity.
  - reflexivity.
Defined.

(** ** The filter *)

Lemma mem_In (x : string) (l : list string) : PyStr.mem x l = true <-> In x l.
Proof.
  unfold PyStr.mem. rewrite existsb_exists. split.
  - intros (y & Hy & E). apply String.eqb_eq in E. subst. exact Hy.
  - intros H. exists x. split; [exact H | apply String.eqb_refl].
Qed.




(** ** The rows of the counter file *)

Lemma drop_last_app (s : string) (c : ascii) :
  PyStr.drop_last (s ++ String c EmptyString) = s.
Proof.
  induction s as [|a s IH]; simpl; [reflexivity |].
  rewrite IH. destruct s; reflexivity.
Qed.

Lemma lstrip_spaces (n : nat) (s : string) :
  PyStr.lstrip (spaces n ++ s) = PyStr.lstrip s.
Proof. induction n as [|n IH]; simpl; [reflexivity | exact IH]. Qed.

Lemma rstrip_cons (c : ascii) (s : string) :
  PyStr.is_space c = false ->
  PyStr.rstrip (String c s) = String c (PyStr.rstrip s).
Proof. intros H. simpl. rewrite H. destruct (PyStr.rstrip s); reflexivity. Qed.

Lemma rstrip_app (u s : string) :
  no_space u = true -> PyStr.rstrip (u ++ s) = u ++ PyStr.rstrip s.
Proof.
  induction u as [|c u IH]; intros H; [reflexivity |].
  simpl in H. apply andb_true_iff in H. destruct H as [Hc Hu].
  apply negb_true_iff in Hc.
  change ((String c u ++ s)%string) with (String c (u ++ s)).
  rewrite (rstrip_cons _ _ Hc), (IH Hu). reflexivity.
Qed.

Lemma lstrip_no_space (u s : string) :
  no_space u = true -> u <> EmptyString -> PyStr.lstrip (u ++ s) = u ++ s.
Proof.
  destruct u as [|c u]; [congruence |]. simpl. intros H _.
  apply andb_true_iff in H. destruct H as [Hc _].
  apply negb_true_iff in Hc. rewrite Hc. reflexivity.
Qed.

Lemma split_spaces (n : nat) (s : string) :
  PyStr.split " " (spaces n ++ s) = (repeat EmptyString n ++ PyStr.split " " s)%list.
Proof. induction n as [|n IH]; simpl; [reflexivity | rewrite IH; reflexivity]. Qed.

Lemma split_word (u s : string) :
  no_space u = true ->
  PyStr.split " " (u ++ String " " s) = u :: PyStr.split " " s.
Proof.
  induction u as [|c u IH]; intros H; [reflexivity |].
  simpl in H. apply andb_true_iff in H. destruct H as [Hc Hu].
  simpl. destruct (Ascii.eqb_spec c " ") as [-> | _]; [discriminate Hc |].
  rewrite (IH Hu). reflexivity.
Qed.

Lemma split_last_word (u : string) :
  no_space u = true -> PyStr.split " " u = [u].
Proof.
  induction u as [|c u IH]; intros H; [reflexivity |].
  simpl in H. apply andb_true_iff in H. destruct H as [Hc Hu].
  simpl. destruct (Ascii.eqb_spec c " ") as [-> | _]; [discriminate Hc |].
  rewrite (IH Hu). reflexivity.
Qed.

Lemma filter_repeat_empty (n : nat) (l : list string) :
  filter PyStr.truthy (repeat EmptyString n ++ l) = filter PyStr.truthy l.
Proof. induction n as [|n IH]; simpl; [reflexivity | exact IH]. Qed.

Lemma no_space_colon (name : string) :
  no_space name = true -> no_space (name ++ ":") = true.
Proof.
  induction name as [|c u IH]; simpl; [reflexivity |].
  intros H. apply andb_true_iff in H. destruct H as [Hc Hu].
  rewrite Hc, (IH Hu). reflexivity.
Qed.

Lemma append_empty (s : string) : (s ++ "")%string = s.
Proof. induction s as [|c s IH]; simpl; [reflexivity | rewrite IH; reflexivity]. Qed.

Lemma append_colon_space (name rest : string) :
  (name ++ ": " ++ rest)%string = ((name ++ ":") ++ String " " rest)%string.
Proof. induction name as [|c u IH]; simpl; [reflexivity | f_equal; exact IH]. Qed.

(** The name the filter sees and the words of a row of the file. *)
Lemma row_name (n : nat) (name rest : string) :
  no_space name = true ->
  dev_name (spaces n ++ name ++ ": " ++ rest) = name /\
  words (spaces n ++ name ++ ": " ++ rest) = (name ++ ":")%string :: words rest.
Proof.
  intros Hname.
  assert (Hu : no_space (name ++ ":") = true) by (apply no_space_colon, Hname).
  assert (Hne : (name ++ ":")%string <> EmptyString) by (destruct name; discriminate).
  rewrite append_colon_space. split.
  - unfold dev_name, PyStr.strip.
    rewrite lstrip_spaces, (lstrip_no_space _ _ Hu Hne), (rstrip_app _ _ Hu).
    assert (Hhd : hd EmptyString
                    (PyStr.split " " ((name ++ ":") ++ PyStr.rstrip (String " " rest)))
                  = (name ++ ":")%string).
    { simpl PyStr.rstrip. destruct (PyStr.rstrip rest) as [|c r].
      - simpl PyStr.is_space. cbv iota. rewrite append_empty.
        rewrite (split_last_word _ Hu). reflexivity.
      - rewrite (split_word _ _ Hu). reflexivity. }
    rewrite Hhd. apply drop_last_app.
  - unfold words.
    rewrite split_spaces, filter_repeat_empty, (split_word _ _ Hu). simpl.
    destruct (name ++ ":")%string eqn:E; [contradiction | reflexivity].
Qed.

Lemma counter_field (fields : list string) (name : string) (i : nat) (v : Z) :
  (s <- py_index (name :: fields) (S i) ;; PyStr.py_int s) = Ok v ->
  exists a, nth_error fields i = Some a /\ PyStr.py_int a = Ok v.
Proof.
  unfold py_index. simpl. destruct (nth_error fields i) as [a|]; simpl;
    [eauto | discriminate].
Qed.

(** C9, counterexample: between two reads of the row of [eth0] the bytes go
    from 1000 to 2000 received and from 200 to 700 sent, the packets from 10
    to 30 and from 20 to 50.  Counted from 0 among the numeric fields, fields
    1 and 9 are the packets; the rates of the loop are those of the bytes. *)
Lemma field_numbering_example :
  loop_body (of_int 1) [] eth0_before eth0_after
    = Ok [("eth0:", {| total := of_int 1500; up := of_int 500;
                       down := of_int 1000 |})] /\
  spec_bytesReceived eth0_before = Ok 10 /\
  spec_bytesReceived eth0_after = Ok 30 /\
  spec_bytesSent eth0_before = Ok 20 /\
  spec_bytesSent eth0_after = Ok 50 /\
  truediv_int (30 - 10) (of_int 1) <> Ok (of_int 1000) /\
  truediv_int (50 - 20) (of_int 1) <> Ok (of_int 500).
Proof.
  repeat apply conj; try (vm_compute; reflexivity);
    intros E; vm_compute in E; discriminate E.
Qed.

(** C9, as amended: the first two lines of the file are skipped; the name by
    which a row is filtered is its first word without the colon that ends
    it; and the loop takes as received bytes word 1 and as sent bytes word 9
    of the row, the name being word 0: counted from 0 among the numeric
    fields that follow the name, these are fields 0 and 8.  The rates are
    stored under the first word, colon included. *)
Theorem snapshot_rows cfg h1 h2 lines n name rest
    timedelta deltas old_name old_fields deltas' :
  no_space name = true ->
  loop_body timedelta deltas (old_name :: old_fields)
    (words (spaces n ++ name ++ ": " ++ rest)) = Ok deltas' ->
  _get_stat cfg (Some (h1 :: h2 :: lines))
    = Ok (Some (map words (filter (dev_filter cfg) lines))) /\
  dev_name (spaces n ++ name ++ ": " ++ rest) = name /\
  exists a b c d rx_new rx_old tx_new tx_old down up,
    nth_error (words rest) 0 = Some a /\ PyStr.py_int a = Ok rx_new /\
    nth_error old_fields 0 = Some b /\ PyStr.py_int b = Ok rx_old /\
    nth_error (words rest) 8 = Some c /\ PyStr.py_int c = Ok tx_new /\
    nth_error old_fields 8 = Some d /\ PyStr.py_int d = Ok tx_old /\
    truediv_int (rx_new - rx_old) timedelta = Ok down /\
    truediv_int (tx_new - tx_old) timedelta = Ok up /\
    deltas' = PyDict.set (name ++ ":")
                {| total := fadd up down; up := up; down := down |} deltas.
Proof.
  intros Hname H.
  destruct (row_name n name rest Hname) as [Hdev Hwords].
  split; [reflexivity |]. split; [exact Hdev |].
  rewrite Hwords in H. apply loop_body_Ok in H.
  destruct H as (rx_new & rx_old & tx_new & tx_old & dn & u & key
                 & Hrn & Hro & Htn & Hto & Hdn & Hu & Hkey & ->).
  simpl in Hkey. injection Hkey as <-.
  apply counter_field in Hrn, Hro, Htn, Hto.
  destruct Hrn as (a & Ha & Hia), Hro as (b & Hb & Hib),
           Htn as (c & Hc & Hic), Hto as (d & Hd & Hid).
  exists a, b, c, d, rx_new, rx_old, tx_new, tx_old, dn, u.
  repeat apply conj; auto.
Qed.

Lemma snapshot_rows_witness :
  no_space "eth0" = true /\
  dev_name (spaces 2 ++ "eth0" ++ ": "
              ++ "2000 30 0 0 0 0 0 0 700 50 0 0 0 0 0 0" ++ nl) = "eth0".
Proof.
  assert (Hname : no_space "eth0" = true) by reflexivity.
  split; [exact Hname |].
  refine (proj1 (proj2 (snapshot_rows configured "" "" [] 2 "eth0"
            ("2000 30 0 0 0 0 0 0 700 50 0 0 0 0 0 0" ++ nl)
            (of_int 1) [] "eth0:" (tl eth0_before)
            [("eth0:", {| total := of_int 1500; up := of_int 500;
                          down := of_int 1000 |})] Hname _))).
  vm_compute; reflexivity.
Defined.

(** ** The rates of the paired rows *)

Lemma find_set_same {V} (k : string) (v : V) (d : PyDict.dict V) :
  PyDict.find k (PyDict.set k v d) = Some v.
Proof.
  induction d as [|[k' v'] d IH]; simpl.
  - rewrite String.eqb_refl. reflexivity.
  - destruct (String.eqb k k') eqn:E; simpl; rewrite E; [reflexivity | exact IH].
Qed.

Lemma find_set_other {V} (k k' : string) (v : V) (d : PyDict.dict V) :
  k <> k' -> PyDict.find k (PyDict.set k' v d) = PyDict.find k d.
Proof.
  intros Hne. induction d as [|[k2 v2] d IH]; simpl.
  - apply String.eqb_neq in Hne. rewrite Hne. reflexivity.
  - destruct (String.eqb k' k2) eqn:E; simpl.
    + apply String.eqb_eq in E. subst k2.
      apply String.eqb_neq in Hne. rewrite Hne. reflexivity.
    + rewrite IH. reflexivity.
Qed.

Lemma truediv_int_Ok n d r :
  truediv_int n d = Ok r -> r = fdiv (of_int n) d.
Proof.
  unfold truediv_int. destruct (is_inf (of_int n)); [discriminate |].
  destruct (is_zero d); [discriminate |]. intros [= <-]. reflexivity.
Qed.

(** Rows that come later and bear other names leave an entry as it is. *)
Lemma for_each_find_other timedelta pairs deltas deltas' name :
  for_each timedelta pairs deltas = Ok deltas' ->
  (forall j old new, nth_error pairs j = Some (old, new) ->
                     nth_error new 0 <> Some name) ->
  PyDict.find name deltas' = PyDict.find name deltas.
Proof.
  revert deltas. induction pairs as [|[old new] pairs IH]; simpl; intros deltas H Hd.
  - injection H as <-. reflexivity.
  - apply rbind_Ok in H. destruct H as (d1 & H1 & H2).
    rewrite (IH _ H2 (fun j => Hd (S j))).
    apply loop_body_Ok in H1.
    destruct H1 as (? & ? & ? & ? & ? & ? & key & _ & _ & _ & _ & _ & _ & Hk & ->).
    apply find_set_other. intros ->. exact (Hd 0%nat old new eq_refl Hk).
Qed.

Lemma for_each_app timedelta p1 p2 deltas :
  for_each timedelta (p1 ++ p2) deltas
    = (d1 <- for_each timedelta p1 deltas ;; for_each timedelta p2 d1).
Proof.
  revert deltas. induction p1 as [|[old new] p1 IH]; simpl; intros deltas.
  - reflexivity.
  - destruct (loop_body timedelta deltas old new) as [d|e]; simpl;
      [apply IH | reflexivity].
Qed.

Lemma firstn_split {A} (l1 l2 : list A) (a : A) :
  firstn (List.length l1) (l1 ++ a :: l2) = l1 /\
  firstn (S (List.length l1)) (l1 ++ a :: l2) = (l1 ++ [a])%list.
Proof.
  induction l1 as [|x l1 [IH1 IH2]]; simpl.
  - split; reflexivity.
  - simpl in IH2. rewrite IH1, IH2. split; reflexivity.
Qed.

(** The round of the loop for the pair at index [i]: it stores the rates of
    that pair under the name of its new row; later rows of other names leave
    them there. *)
Lemma for_each_round timedelta pairs deltas i old new name
    rx_old tx_old rx_new tx_new :
  for_each timedelta pairs [] = Ok deltas ->
  nth_error pairs i = Some (old, new) ->
  nth_error new 0 = Some name ->
  bytesReceived old = Ok rx_old -> bytesSent old = Ok tx_old ->
  bytesReceived new = Ok rx_new -> bytesSent new = Ok tx_new ->
  let r := {| total := fadd (fdiv (of_int (tx_new - tx_old)) timedelta)
                            (fdiv (of_int (rx_new - rx_old)) timedelta);
              up := fdiv (of_int (tx_new - tx_old)) timedelta;
              down := fdiv (of_int (rx_new - rx_old)) timedelta |} in
  exists before,
    for_each timedelta (firstn i pairs) [] = Ok before /\
    for_each timedelta (firstn (S i) pairs) [] = Ok (PyDict.set name r before) /\
    ((forall j o n, (i < j)%nat -> nth_error pairs j = Some (o, n) ->
                    nth_error n 0 <> Some name) ->
     PyDict.find name deltas = Some r).
Proof.
  intros H Hi Hname Hro Hto Hrn Htn r.
  destruct (nth_error_split _ _ Hi) as (l1 & l2 & -> & <-).
  destruct (firstn_split l1 l2 (old, new)) as [-> ->].
  rewrite for_each_app in H. apply rbind_Ok in H.
  destruct H as (before & Hb & H). simpl in H.
  apply rbind_Ok in H. destruct H as (mid & Hm & Hl2).
  assert (Emid : mid = PyDict.set name r before).
  { apply loop_body_Ok in Hm.
    destruct Hm as (a & b & c & d & dn & u & key
                    & Ha & Hb' & Hc & Hd & Hdn & Hu & Hk & ->).
    rewrite Hname in Hk. injection Hk as <-.
    rewrite Hrn in Ha. rewrite Hro in Hb'. rewrite Htn in Hc. rewrite Hto in Hd.
    injection Ha as <-. injection Hb' as <-. injection Hc as <-. injection Hd as <-.
    apply truediv_int_Ok in Hdn, Hu. subst dn u. reflexivity. }
  exists before. split; [exact Hb |]. split.
  - rewrite for_each_app, Hb. simpl. rewrite Hm. simpl. rewrite Emid. reflexivity.
  - intros Hlater.
    rewrite (for_each_find_other _ _ _ _ name Hl2).
    + rewrite Emid. apply find_set_same.
    + intros j o n Hj. apply (Hlater (List.length l1 + S j)%nat o n); [lia |].
      rewrite nth_error_app2 by lia.
      replace (List.length l1 + S j - List.length l1)%nat with (S j) by lia.
      exact Hj.
Qed.

Lemma nth_error_combine {A B} (l : list A) (l' : list B) i a b :
  nth_error (combine l l') i = Some (a, b) <->
  nth_error l i = Some a /\ nth_error l' i = Some b.
Proof.
  revert l' i. induction l as [|x l IH]; intros l' i.
  - simpl. destruct i; simpl; split; intros H; try discriminate; destruct H; discriminate.
  - destruct l' as [|y l'].
    + simpl. destruct i; simpl; split; intros H; try discriminate;
        destruct H; discriminate.
    + destruct i as [|i]; simpl.
      * split; [intros [= -> ->]; auto | intros [[= ->] [= ->]]; reflexivity].
      * apply IH.
Qed.

(** C6: in a paired cycle, for each index [i] the round of the loop for the
    rows [old = olds[i]] and [new = news[i]] computes
    [down = (rx_new - rx_old) / elapsed], [up = (tx_new - tx_old) / elapsed]
    and [total = up + down], whatever the sign of the differences, and stores
    them under the name of the new row; they are the entry of that name in the
    rates of the cycle unless a later row bears the same name. *)
Theorem rates_of_pairs cfg w self deltas olds news i old new name
    rx_old tx_old rx_new tx_new :
  paired cfg w self deltas ->
  last_stat self = Some olds ->
  _get_stat cfg (read1 w) = Ok (Some news) ->
  nth_error olds i = Some old ->
  nth_error news i = Some new ->
  nth_error new 0 = Some name ->
  bytesReceived old = Ok rx_old -> bytesSent old = Ok tx_old ->
  bytesReceived new = Ok rx_new -> bytesSent new = Ok tx_new ->
  let elapsed := fsub (time1 w) (last_time self) in
  let down := fdiv (of_int (rx_new - rx_old)) elapsed in
  let up := fdiv (of_int (tx_new - tx_old)) elapsed in
  let r := {| total := fadd up down; up := up; down := down |} in
  exists before,
    for_each elapsed (firstn i (combine olds news)) [] = Ok before /\
    for_each elapsed (firstn (S i) (combine olds news)) []
      = Ok (PyDict.set name r before) /\
    ((forall j row, (i < j)%nat -> nth_error news j = Some row ->
                    nth_error row 0 <> Some name) ->
     PyDict.get name deltas = Ok r).
Proof.
  intros (ns & pairs & Hns & Hz & Hl) Hold Hnew Hio Hin Hname Hro Hto Hrn Htn.
  cbv zeta. rewrite Hnew in Hns. injection Hns as <-.
  rewrite Hold in Hz. simpl in Hz. injection Hz as <-.
  destruct (for_each_round _ _ _ i old new name rx_old tx_old rx_new tx_new Hl)
    as (before & Hb & Hr & Hfinal); auto.
  { apply nth_error_combine. auto. }
  exists before. split; [exact Hb |]. split; [exact Hr |].
  intros Hlater. unfold PyDict.get. rewrite Hfinal; [reflexivity |].
  intros j o n Hj Hc. apply nth_error_combine in Hc. destruct Hc as [_ Hc].
  exact (Hlater j n Hj Hc).
Qed.

Lemma rates_of_pairs_witness :
  paired configured one_second_later eth0_at_10
    [("eth0:", {| total := of_int 1500; up := of_int 500; down := of_int 1000 |})] /\
  PyDict.get "eth0:"
    [("eth0:", {| total := of_int 1500; up := of_int 500; down := of_int 1000 |})]
    = Ok {| total := of_int 1500; up := of_int 500; down := of_int 1000 |}.
Proof.
  assert (Hp : paired configured one_second_later eth0_at_10
                 [("eth0:", {| total := of_int 1500; up := of_int 500;
                               down := of_int 1000 |})]).
  { exists (Some [row "eth0" "2000" "700"]).
    exists (combine [row "eth0" "1000" "200"] [row "eth0" "2000" "700"]).
    by_computation. }
  split; [exact Hp |].
  assert (E : {| total := of_int 1500; up := of_int 500; down := of_int 1000 |}
              = let elapsed := fsub (time1 one_second_later) (last_time eth0_at_10) in
                let down := fdiv (of_int (2000 - 1000)) elapsed in
                let up := fdiv (of_int (700 - 200)) elapsed in
                {| total := fadd up down; up := up; down := down |})
    by (vm_compute; reflexivity).
  rewrite E at 2.
  assert (Hold : last_stat eth0_at_10 = Some [row "eth0" "1000" "200"])
    by reflexivity.
  assert (Hnew : _get_stat configured (read1 one_second_later)
                 = Ok (Some [row "eth0" "2000" "700"]))
    by (vm_compute; reflexivity).
  assert (Hname : nth_error (row "eth0" "2000" "700") 0 = Some "eth0:")
    by (vm_compute; reflexivity).
  assert (Hro : bytesReceived (row "eth0" "1000" "200") = Ok 1000)
    by (vm_compute; reflexivity).
  assert (Hto : bytesSent (row "eth0" "1000" "200") = Ok 200)
    by (vm_compute; reflexivity).
  assert (Hrn : bytesReceived (row "eth0" "2000" "700") = Ok 2000)
    by (vm_compute; reflexivity).
  assert (Htn : bytesSent (row "eth0" "2000" "700") = Ok 700)
    by (vm_compute; reflexivity).
  destruct (rates_of_pairs configured one_second_later eth0_at_10 _
              [row "eth0" "1000" "200"] [row "eth0" "2000" "700"] 0
              (row "eth0" "1000" "200") (row "eth0" "2000" "700") "eth0:"
              1000 200 2000 700 Hp Hold Hnew eq_refl eq_refl Hname
              Hro Hto Hrn Htn)
    as (before & _ & _ & Hfinal).
  apply Hfinal.
  intros j r Hj Hr. destruct j as [|[|j]]; [inversion Hj | discriminate Hr ..].
Defined.

(** A counter that went down gives a negative rate, kept as it is. *)
Lemma negative_rate_example :
  for_each (of_int 1)
    (combine [row "wlan0" "500" "500"] [row "wlan0" "400" "500"]) []
  = Ok [("wlan0:", {| total := of_int (-100); up := of_int 0;
                      down := of_int (-100) |})].
Proof. vm_compute; reflexivity. Qed.

(** ** The order of the floats *)

Ltac order_cases :=
  repeat match goal with
  | |- context [Z.compare ?a ?b] => destruct (Z.compare_spec a b)
  | |- context [Pos.compare ?a ?b] => destruct (Pos.compare_spec a b)
  end; simpl; try discriminate; try reflexivity; try lia.

Ltac float_cases x :=
  let s := fresh "s" in
  destruct x as [s|s| |s ? ?]; try destruct s.

Lemma fgt_irrefl a : fgt a a = false.
Proof.
  unfold fgt, SFltb, SFcompare. float_cases a; try reflexivity;
    change (Pos.compare_cont Eq) with Pos.compare; order_cases.
Qed.

Lemma fgt_trans a b c : fgt a b = true -> fgt b c = true -> fgt a c = true.
Proof.
  unfold fgt, SFltb, SFcompare.
  float_cases a; float_cases b; float_cases c;
    try discriminate; try reflexivity;
    change (Pos.compare_cont Eq) with Pos.compare; order_cases.
Qed.

Lemma fge_fgt_trans a b c : fge a b = true -> fgt b c = true -> fgt a c = true.
Proof.
  unfold fgt, fge, SFltb, SFleb, SFcompare.
  float_cases a; float_cases b; float_cases c;
    try discriminate; try reflexivity;
    change (Pos.compare_cont Eq) with Pos.compare; order_cases.
Qed.

Lemma fgt_not_fge a b : fgt a b = true -> fge b a = false.
Proof.
  unfold fgt, fge, SFltb, SFleb, SFcompare.
  float_cases a; float_cases b;
    try discriminate; try reflexivity;
    change (Pos.compare_cont Eq) with Pos.compare; order_cases.
Qed.

(** Two floats that are numbers compare one way or the other. *)
Lemma fge_total a b :
  is_nan a = false -> is_nan b = false -> fgt a b = false -> fge b a = true.
Proof.
  unfold fgt, fge, SFltb, SFleb, SFcompare.
  float_cases a; float_cases b;
    try discriminate; try reflexivity;
    change (Pos.compare_cont Eq) with Pos.compare; order_cases.
Qed.

(** ** The interface of the largest total *)

Section Max.

Context {A : Type} (key : A -> result float).

(** What [max_loop] returns, with [cur] the best item so far: either [cur],
    or an item of [l] above [cur] that nothing before it in [l] reaches; no
    item exceeds it. *)
Lemma max_loop_spec cur curk l x :
  max_loop key cur curk l = Ok x ->
  exists kx,
    ((x = cur /\ kx = curk) \/
     (exists i, nth_error l i = Some x /\ key x = Ok kx /\ fgt kx curk = true /\
                forall j y ky, (j < i)%nat -> nth_error l j = Some y ->
                               key y = Ok ky -> fge ky kx = false)) /\
    (forall y ky, In y l -> key y = Ok ky -> fgt ky kx = false) /\
    fgt curk kx = false.
Proof.
  revert cur curk. induction l as [|y l IH]; simpl; intros cur curk H.
  - injection H as <-. exists curk. split; [auto |].
    split; [intros ? ? [] | apply fgt_irrefl].
  - apply rbind_Ok in H. destruct H as (ky & Hky & H).
    destruct (fgt ky curk) eqn:Hgt.
    + destruct (IH _ _ H) as (kx & HR & HM & HM0). exists kx.
      assert (Hx : fgt kx curk = true).
      { destruct HR as [[_ ->] | (i & _ & _ & Hi & _)];
          [exact Hgt | exact (fgt_trans _ _ _ Hi Hgt)]. }
      split; [right | split].
      * destruct HR as [[-> ->] | (i & Hi & Hk & Hg & Hfirst)].
        -- exists 0%nat. repeat apply conj; auto.
           intros j ? ? Hj. inversion Hj.
        -- exists (S i). repeat apply conj; auto.
           intros [|j] z kz Hj Hz Hkz.
           ++ simpl in Hz. injection Hz as <-. rewrite Hky in Hkz.
              injection Hkz as <-. apply fgt_not_fge, Hg.
           ++ apply (Hfirst j z kz); auto. apply Nat.succ_lt_mono. exact Hj.
      * intros z kz [<- | Hz] Hkz; [| eauto].
        rewrite Hky in Hkz. injection Hkz as <-. exact HM0.
      * destruct (fgt curk kx) eqn:E; [| reflexivity].
        rewrite (fgt_trans _ _ _ Hgt E) in HM0. discriminate.
    + destruct (IH _ _ H) as (kx & HR & HM & HM0). exists kx.
      assert (Hy : fgt ky kx = false).
      { destruct HR as [[_ ->] | (i & _ & _ & Hi & _)]; [exact Hgt |].
        destruct (fgt ky kx) eqn:E; [| reflexivity].
        rewrite (fgt_trans _ _ _ E Hi) in Hgt. discriminate. }
      split; [| split].
      * destruct HR as [HR | (i & Hi & Hk & Hg & Hfirst)]; [left; exact HR | right].
        exists (S i). repeat apply conj; auto.
        intros [|j] z kz Hj Hz Hkz.
        -- simpl in Hz. injection Hz as <-. rewrite Hky in Hkz.
           injection Hkz as <-.
           destruct (fge ky kx) eqn:E; [| reflexivity].
           assert (Hc : fgt ky curk = true) by exact (fge_fgt_trans _ _ _ E Hg).
           congruence.
        -- apply (Hfirst j z kz); auto. apply Nat.succ_lt_mono. exact Hj.
      * intros z kz [<- | Hz] Hkz; [| eauto].
        rewrite Hky in Hkz. injection Hkz as <-. exact Hy.
      * exact HM0.
Qed.

Lemma max_loop_total cur curk l :
  (forall y, In y l -> exists ky, key y = Ok ky) ->
  exists x, max_loop key cur curk l = Ok x.
Proof.
  revert cur curk. induction l as [|y l IH]; simpl; intros cur curk H.
  - eauto.
  - destruct (H y (or_introl eq_refl)) as (ky & ->). simpl.
    destruct (fgt ky curk); apply IH; auto.
Qed.

(** [max]: the item returned is at an index [i] of the list; no item has a
    key above its key, and no item before it a key that reaches its key. *)
Lemma py_max_spec l x :
  py_max key l = Ok x ->
  exists i kx,
    nth_error l i = Some x /\ key x = Ok kx /\
    (forall y ky, In y l -> key y = Ok ky -> fgt ky kx = false) /\
    (forall j y ky, (j < i)%nat -> nth_error l j = Some y ->
                    key y = Ok ky -> fge ky kx = false).
Proof.
  destruct l as [|x0 l]; simpl; [discriminate |]. intros H.
  apply rbind_Ok in H. destruct H as (k0 & Hk0 & H).
  destruct (max_loop_spec _ _ _ _ H) as (kx & HR & HM & HM0).
  destruct HR as [[-> ->] | (i & Hi & Hk & Hg & Hfirst)].
  - exists 0%nat, k0. repeat apply conj; auto.
    + intros y ky [<- | Hy] Hky; [| eauto].
      rewrite Hk0 in Hky. injection Hky as <-. exact HM0.
    + intros j ? ? Hj. inversion Hj.
  - exists (S i), kx. repeat apply conj; auto.
    + intros y ky [<- | Hy] Hky; [| eauto].
      rewrite Hk0 in Hky. injection Hky as <-. exact HM0.
    + intros [|j] z kz Hj Hz Hkz.
      * simpl in Hz. injection Hz as <-. rewrite Hk0 in Hkz.
        injection Hkz as <-. apply fgt_not_fge, Hg.
      * apply (Hfirst j z kz); auto. apply Nat.succ_lt_mono. exact Hj.
Qed.

Lemma py_max_total l :
  l <> [] -> (forall y, In y l -> exists ky, key y = Ok ky) ->
  exists x, py_max key l = Ok x.
Proof.
  destruct l as [|x0 l]; [congruence |]. intros _ H. simpl.
  destruct (H x0 (or_introl eq_refl)) as (k0 & ->). simpl.
  apply max_loop_total. intros y Hy. apply H. right. exact Hy.
Qed.

End Max.

Lemma keys_get {V} (d : PyDict.dict V) (k : string) :
  In k (PyDict.keys d) -> exists v, PyDict.get k d = Ok v.
Proof.
  intros H. unfold PyDict.get.
  destruct (PyDict.find k d) as [v|] eqn:E; [eauto |].
  apply find_keys in E. contradiction.
Qed.

Lemma get_total_of deltas k d :
  PyDict.get k deltas = Ok d ->
  In k (PyDict.keys deltas) /\ total_of deltas k = Ok (total d).
Proof.
  intros H. split.
  - destruct (in_dec string_dec k (PyDict.keys deltas)) as [Hin | Hnin];
      [exact Hin |].
    apply find_keys in Hnin. unfold PyDict.get in H. rewrite Hnin in H.
    discriminate H.
  - unfold total_of. rewrite H. reflexivity.
Qed.

(** C7, counterexample: a running module has reported [wlan0]; in the next
    cycle [eth0] is idle and the counter of [wlan0] has gone down by 100
    bytes.  The cycle is paired, with two interfaces; the interface the call
    reports is [wlan0], whose total, -100, is below the total of [eth0], 0. *)
Lemma reported_not_maximal_example :
  running configured wlan0_reported /\
  paired configured wlan0_reset wlan0_reported wlan0_reset_deltas /\
  currentSpeed_sample configured wlan0_reset wlan0_reported
    = Returned
        (advanced wlan0_reported
           (Some [row "eth0" "1000" "200"; row "wlan0" "400" "500"]) (of_int 11))
        {| delta := Some {| total := of_int (-100); up := of_int 0;
                            down := of_int (-100) |};
           interface := Some "wlan0:";
           hide := false |} /\
  PyDict.get "eth0:" wlan0_reset_deltas
    = Ok {| total := of_int 0; up := of_int 0; down := of_int 0 |} /\
  PyDict.get "wlan0:" wlan0_reset_deltas
    = Ok {| total := of_int (-100); up := of_int 0; down := of_int (-100) |} /\
  fgt (of_int 0) (of_int (-100)) = true.
Proof.
  split; [| split; [| by_computation]].
  - assert (E : instance_of
                  (currentSpeed_sample configured wlan0_active
                     {| last_interface := None;
                        last_stat := Some [row "eth0" "1000" "200";
                                           row "wlan0" "400" "500"];
                        last_time := of_int 9 |})
                = wlan0_reported) by (vm_compute; reflexivity).
    rewrite <- E. apply running_call.
    apply (running_init configured (Some wlan0_start_lines) (of_int 9)).
    vm_compute; reflexivity.
  - exists (Some [row "eth0" "1000" "200"; row "wlan0" "400" "500"]).
    exists (combine [row "eth0" "1000" "200"; row "wlan0" "500" "500"]
                    [row "eth0" "1000" "200"; row "wlan0" "400" "500"]).
    by_computation.
Qed.

(** C7, as amended: in a paired cycle with at least one interface, [max]
    selects an interface whose stored total is maximal among all paired
    interfaces (no entry has a total above it; it is at least every other
    total, totals that are not numbers apart), and of several interfaces
    with the largest total it selects the first in the order of iteration
    (no entry before it has a total that reaches its total).  The selected
    interface is the one the call reports, with its own rates, whenever its
    total is not exactly zero; when its total is zero the call reports the
    last reported interface instead. *)
Theorem largest_total_first cfg w self deltas :
  paired cfg w self deltas ->
  deltas <> [] ->
  exists selected i dsel,
    py_max (total_of deltas) (PyDict.keys deltas) = Ok selected /\
    nth_error (PyDict.keys deltas) i = Some selected /\
    PyDict.get selected deltas = Ok dsel /\
    (forall k d, PyDict.get k deltas = Ok d ->
       fgt (total d) (total dsel) = false /\
       (is_nan (total d) = false -> is_nan (total dsel) = false ->
        fge (total dsel) (total d) = true)) /\
    (forall j k d, (j < i)%nat -> nth_error (PyDict.keys deltas) j = Some k ->
                   PyDict.get k deltas = Ok d ->
                   fge (total d) (total dsel) = false) /\
    (forall s2, _get_stat cfg (read2 w) = Ok s2 ->
       currentSpeed_sample cfg w self
       = if eq_zero (total dsel)
         then match delta_of deltas (last_interface self) with
              | Ok d => Returned (advanced self s2 (time2 w))
                          {| delta := d; interface := last_interface self;
                             hide := hide_if_zero cfg |}
              | Err e => Raised (advanced self s2 (time2 w)) e
              end
         else Returned (reported (advanced self s2 (time2 w)) selected)
                {| delta := Some dsel; interface := Some selected;
                   hide := false |}).
Proof.
  intros Hp Hne.
  destruct (py_max_total (total_of deltas) (PyDict.keys deltas)) as (sel & Hmax).
  { destruct deltas; [congruence | discriminate]. }
  { intros k Hk. destruct (keys_get _ _ Hk) as (v & Hv).
    exists (total v). unfold total_of. rewrite Hv. reflexivity. }
  destruct (py_max_spec _ _ _ Hmax) as (i & t & Hi & Ht & HM & Hfirst).
  destruct (total_of_Ok _ _ _ Ht) as (dsel & Hd & Et). subst t.
  exists sel, i, dsel.
  split; [exact Hmax |]. split; [exact Hi |]. split; [exact Hd |].
  split; [| split].
  - intros k d Hk. destruct (get_total_of _ _ _ Hk) as [Hin Htk].
    pose proof (HM k _ Hin Htk) as Hle.
    split; [exact Hle |]. intros Hn1 Hn2. apply fge_total; auto.
  - intros j k d Hj Hn Hk. destruct (get_total_of _ _ _ Hk) as [_ Htk].
    exact (Hfirst j k _ Hj Hn Htk).
  - intros s2 Hs.
    rewrite (currentSpeed_sample_report _ _ _ _ Hp).
    rewrite (report_eq _ _ _ _ _ _ _ Hs Hmax Ht). cbv zeta.
    destruct (eq_zero (total dsel)); [reflexivity |].
    unfold delta_of.
    rewrite (paired_keys_truthy _ _ _ _ Hp sel (py_max_In _ _ _ Hmax)), Hd.
    reflexivity.
Qed.

Lemma largest_total_first_witness :
  paired configured both_active two_at_rest both_active_deltas /\
  both_active_deltas <> [] /\
  exists selected i dsel,
    py_max (total_of both_active_deltas) (PyDict.keys both_active_deltas)
      = Ok selected /\
    nth_error (PyDict.keys both_active_deltas) i = Some selected /\
    PyDict.get selected both_active_deltas = Ok dsel /\
    (forall k d, PyDict.get k both_active_deltas = Ok d ->
       fgt (total d) (total dsel) = false /\
       (is_nan (total d) = false -> is_nan (total dsel) = false ->
        fge (total dsel) (total d) = true)) /\
    (forall j k d, (j < i)%nat ->
                   nth_error (PyDict.keys both_active_deltas) j = Some k ->
                   PyDict.get k both_active_deltas = Ok d ->
                   fge (total d) (total dsel) = false) /\
    (forall s2, _get_stat configured (read2 both_active) = Ok s2 ->
       currentSpeed_sample configured both_active two_at_rest
       = if eq_zero (total dsel)
         then match delta_of both_active_deltas (last_interface two_at_rest) with
              | Ok d => Returned (advanced two_at_rest s2 (time2 both_active))
                          {| delta := d; interface := last_interface two_at_rest;
                             hide := hide_if_zero configured |}
              | Err e => Raised (advanced two_at_rest s2 (time2 both_active)) e
              end
         else Returned (reported (advanced two_at_rest s2 (time2 both_active))
                          selected)
                {| delta := Some dsel; interface := Some selected;
                   hide := false |}).
Proof.
  assert (Hp : paired configured both_active two_at_rest both_active_deltas).
  { exists (Some [row "eth0" "500" "0"; row "wlan0" "1500" "0"]).
    exists (combine [row "eth0" "0" "0"; row "wlan0" "0" "0"]
                    [row "eth0" "500" "0"; row "wlan0" "1500" "0"]).
    by_computation. }
  assert (Hne : both_active_deltas <> []) by discriminate.
  split; [exact Hp |]. split; [exact Hne |].
  exact (largest_total_first configured both_active two_at_rest
           both_active_deltas Hp Hne).
Defined.

(** Among [eth0] with 500 bytes a second, [wlan0] with 1500 and [lo], which
    the filter leaves out, [wlan0] is reported. *)
Lemma max_selection_example :
  currentSpeed_sample configured both_active two_at_rest
    = Returned
        {| last_interface := Some "wlan0:";
           last_stat := Some [row "eth0" "500" "0"; row "wlan0" "1500" "0"];
           last_time := of_int 11 |}
        {| delta := Some {| total := of_int 1500; up := of_int 0;
                            down := of_int 1500 |};
           interface := Some "wlan0:";
           hide := false |}.
Proof. vm_compute; reflexivity. Qed.

(** ** The stored snapshot of a running module *)

(** [__init__] stores a sequence, and every call leaves one: from the state
    of a running module the handler of [TypeError] is never entered. *)
Lemma init_last_stat devfile now self :
  __init__ devfile now = Ok self -> exists rows, last_stat self = Some rows.
Proof.
  unfold __init__. intros H. apply rbind_Ok in H. destruct H as (s & Hs & [= <-]).
  destruct devfile as [lines|]; simpl in Hs; [| discriminate].
  injection Hs as <-. simpl. eauto.
Qed.

Lemma get_stat_Some cfg devfile s :
  _get_stat cfg devfile = Ok s -> exists rows, s = Some rows.
Proof.
  destruct devfile as [lines|]; simpl; [| discriminate]. intros [= <-]. eauto.
Qed.

Lemma currentSpeed_sample_last_stat cfg w self self' s :
  (exists rows, last_stat self = Some rows) ->
  currentSpeed_sample cfg w self = Returned self' s ->
  (exists rows, last_stat self' = Some rows) /\
  exists deltas, paired cfg w self deltas.
Proof.
  intros (rows & Hrows) H.
  destruct (currentSpeed_sample_Returned _ _ _ _ _ H)
    as [(_ & _ & ns & Hns & Hzip) | (deltas & Hp & Hr)].
  - destruct (get_stat_Some _ _ _ Hns) as (news & ->).
    rewrite Hrows in Hzip. discriminate.
  - split; [| eauto].
    destruct (report_Returned _ _ _ _ _ _ Hr) as (s2 & sel & t & Hs & Hmax & Ht).
    rewrite (report_eq _ _ _ _ _ _ _ Hs Hmax Ht) in Hr. cbv zeta in Hr.
    destruct (get_stat_Some _ _ _ Hs) as (rows2 & ->).
    destruct (eq_zero t).
    + destruct (delta_of deltas (last_interface self)); [| discriminate].
      injection Hr as <- _. simpl. eauto.
    + destruct (delta_of deltas (Some sel)); [| discriminate].
      injection Hr as <- _. simpl. eauto.
Qed.

(** ** The text of an answer without rates *)

Lemma respond_no_data deadline time_in fv sf cfg s :
  no_data s ->
  exists r, respond deadline time_in fv sf cfg s = Ok r /\
            (full_text deadline r = EmptyString \/
             full_text deadline r = format_no_connection cfg).
Proof.
  intros [_ Hi]. unfold respond. destruct (hide s); simpl.
  - eexists. split; [reflexivity | left; reflexivity].
  - rewrite Hi. simpl. eexists. split; [reflexivity | right; reflexivity].
Qed.

(** * Further properties of the module *)

(** ** [post_config_hook]: the lists of interfaces *)

Lemma split_no_char (sep : ascii) (u : string) :
  no_char sep u = true -> PyStr.split sep u = [u].
Proof.
  induction u as [|c u IH]; intros H; [reflexivity |].
  simpl in H. apply andb_true_iff in H. destruct H as [Hc Hu].
  apply negb_true_iff in Hc. simpl. rewrite Hc, (IH Hu). reflexivity.
Qed.

Lemma split_app_sep (sep : ascii) (u s : string) :
  no_char sep u = true ->
  PyStr.split sep (u ++ String sep s) = u :: PyStr.split sep s.
Proof.
  induction u as [|c u IH]; intros H.
  - simpl. rewrite Ascii.eqb_refl. reflexivity.
  - simpl in H. apply andb_true_iff in H. destruct H as [Hc Hu].
    apply negb_true_iff in Hc. simpl. rewrite Hc, (IH Hu). reflexivity.
Qed.

(** Splitting what was joined gives the pieces back. *)
Lemma split_concat (sep : ascii) (l : list string) :
  l <> [] ->
  Forall (fun u => no_char sep u = true) l ->
  PyStr.split sep (String.concat (String sep EmptyString) l) = l.
Proof.
  induction l as [|x l IH]; intros Hne Hall; [congruence |].
  inversion Hall as [|? ? Hx Hl]; subst.
  destruct l as [|y l].
  - simpl. apply split_no_char, Hx.
  - change (String.concat (String sep EmptyString) (x :: y :: l))
      with (x ++ String sep (String.concat (String sep EmptyString) (y :: l)))%string.
    rewrite (split_app_sep _ _ _ Hx), IH; [reflexivity | discriminate | exact Hl].
Qed.

(** X1: a black list given as one string of names joined by commas, the
    names themselves without commas, is parsed by [post_config_hook] into the
    list of exactly these names, in their order; every line that bears one of
    the names is then refused by the filter; running the hook again changes
    nothing. *)
Theorem post_config_hook_names cfg names :
  names <> [] ->
  Forall (fun u => no_char "," u = true) names ->
  interfaces_blacklist cfg = Str (String.concat "," names) ->
  interfaces_blacklist (post_config_hook cfg) = Lst names /\
  (forall x, In (dev_name x) names -> dev_filter (post_config_hook cfg) x = false) /\
  post_config_hook (post_config_hook cfg) = post_config_hook cfg.
Proof.
  intros Hne Hall Hb.
  assert (E : interfaces_blacklist (post_config_hook cfg) = Lst names).
  { simpl. rewrite Hb. simpl. rewrite (split_concat "," names Hne Hall). reflexivity. }
  split; [exact E |]. split.
  - intros x Hin. unfold dev_filter. rewrite E. simpl.
    apply mem_In in Hin. rewrite Hin. reflexivity.
  - unfold post_config_hook. simpl.
    destruct (interfaces cfg), (interfaces_blacklist cfg); reflexivity.
Qed.

Lemma post_config_hook_names_witness :
  interfaces_blacklist
    (post_config_hook
       (mkConfig true 2 "{interface}: {total}" "" false (Lst []) (Str "lo,docker0")))
  = Lst ["lo"; "docker0"].
Proof.
  refine (proj1 (post_config_hook_names
            (mkConfig true 2 "{interface}: {total}" "" false (Lst []) (Str "lo,docker0"))
            ["lo"; "docker0"] _ _ _)).
  - discriminate.
  - repeat constructor.
  - reflexivity.
Defined.

(** ** The name a line is filtered by *)

Lemma hd_split_no_char (sep : ascii) (s : string) :
  no_char sep (hd EmptyString (PyStr.split sep s)) = true.
Proof.
  induction s as [|c s IH]; [reflexivity |].
  simpl. destruct (Ascii.eqb c sep) eqn:E; [reflexivity |].
  destruct (PyStr.split sep s) as [|w ws]; simpl in *.
  - rewrite E. reflexivity.
  - rewrite E, IH. reflexivity.
Qed.

Lemma drop_last_no_char (c : ascii) (s : string) :
  no_char c s = true -> no_char c (PyStr.drop_last s) = true.
Proof.
  induction s as [|a s IH]; intros H; [reflexivity |].
  simpl in H. apply andb_true_iff in H. destruct H as [Ha Hs].
  destruct s as [|b s]; [reflexivity |].
  change (PyStr.drop_last (String a (String b s)))
    with (String a (PyStr.drop_last (String b s))).
  specialize (IH Hs). revert IH.
  generalize (PyStr.drop_last (String b s)). intros t IH.
  simpl. rewrite Ha, IH. reflexivity.
Qed.

(** X2: the name by which the filter looks a line up never contains a
    space; so an entry of a list of interfaces that contains a space, such
    as the second name of ['lo, eth0'] after the split at the comma, is equal
    to the name of no line and the list does as if it were not there. *)
Theorem spaced_entry_matches_nothing x e :
  no_char " " e = false ->
  no_char " " (dev_name x) = true /\
  dev_name x <> e /\
  forall l, PyStr.mem (dev_name x) (e :: l) = PyStr.mem (dev_name x) l.
Proof.
  intros He.
  assert (Hn : no_char " " (dev_name x) = true).
  { unfold dev_name. apply drop_last_no_char, hd_split_no_char. }
  assert (Hne : dev_name x <> e) by (intros E; rewrite E in Hn; congruence).
  split; [exact Hn |]. split; [exact Hne |].
  intros l. unfold PyStr.mem. simpl.
  apply String.eqb_neq in Hne. rewrite Hne. reflexivity.
Qed.

Lemma spaced_entry_matches_nothing_witness :
  no_char " " " eth0" = false /\
  to_list (Str "lo, eth0") = Lst ["lo"; " eth0"] /\
  dev_name (row_line "eth0" "1" "1") <> " eth0".
Proof.
  assert (He : no_char " " " eth0" = false) by reflexivity.
  split; [exact He |]. split; [reflexivity |].
  exact (proj1 (proj2 (spaced_entry_matches_nothing
                         (row_line "eth0" "1" "1") " eth0" He))).
Defined.

(** ** [post_config_hook]: the template of a value *)

(** X3: after [post_config_hook] the template [format_value] is always set.
    A template given by the user is kept as it is whatever [precision] is,
    and the user is notified exactly when both are set; without a template,
    [precision = 1] gives the same template as no [precision] at all, with a
    minimal length of 11; and the attributes the hook leaves are a fixpoint
    of the hook. *)
Theorem post_config_hook_value_set v :
  format_value (fst (post_config_hook_value v)) <> None /\
  (forall f, format_value v = Some f -> fst (post_config_hook_value v) = v) /\
  snd (post_config_hook_value v)
    = match format_value v, precision v with
      | Some _, Some _ => [both_set_notice]
      | _, _ => []
      end /\
  (format_value v = None -> precision v = Some 1 ->
   format_value (fst (post_config_hook_value v)) = Some default_format_value /\
   left_align (fst (post_config_hook_value v)) = Some 11) /\
  (format_value v = None -> precision v = None ->
   format_value (fst (post_config_hook_value v)) = Some default_format_value) /\
  fst (post_config_hook_value (fst (post_config_hook_value v)))
    = fst (post_config_hook_value v).
Proof.
  destruct v as [[f|] [p|] la]; unfold post_config_hook_value; simpl;
    repeat apply conj; try discriminate; try reflexivity; try congruence.
  intros _ [= ->]. split; vm_compute; reflexivity.
Qed.

(** ** [__init__] *)

Lemma contains_lo (x : string) :
  PyStr.contains x "lo" = PyStr.mem x [""; "l"; "o"; "lo"].
Proof.
  unfold PyStr.mem.
  destruct x as [|a [|b [|c x]]]; simpl; try reflexivity.
  - destruct (ascii_dec a "l") as [-> | Hl]; [reflexivity |].
    destruct (ascii_dec a "o") as [-> | Ho]; [reflexivity |].
    apply Ascii.eqb_neq in Hl, Ho. rewrite Hl, Ho. reflexivity.
  - destruct (ascii_dec a "l") as [-> | Hl].
    + destruct (ascii_dec b "o") as [-> | Ho]; [reflexivity |].
      apply Ascii.eqb_neq in Ho. simpl. rewrite Ho. reflexivity.
    + destruct (ascii_dec a "o") as [-> | Ho]; [reflexivity |].
      apply Ascii.eqb_neq in Hl, Ho. rewrite Hl, Ho. reflexivity.
  - destruct (ascii_dec a "l") as [-> | Hl].
    + destruct (ascii_dec b "o") as [-> | Ho]; [reflexivity |].
      apply Ascii.eqb_neq in Ho. simpl. rewrite Ho. reflexivity.
    + destruct (ascii_dec a "o") as [-> | Ho]; [reflexivity |].
      apply Ascii.eqb_neq in Hl, Ho. rewrite Hl, Ho. reflexivity.
Qed.

(** X4: [__init__] takes its snapshot before the configuration is applied,
    so with the class attributes: every interface is tracked, and the black
    list is the string ['lo'], in which a name is looked up as a substring.
    The rows kept are those whose name is none of the empty name, [l], [o]
    and [lo], whatever the user has configured; no interface is reported yet
    and the time is the one of the construction. *)
Theorem init_snapshot lines now :
  __init__ (Some lines) now
  = Ok {| last_interface := None;
          last_stat :=
            Some (map words
                    (filter (fun x => negb (PyStr.mem (dev_name x) [""; "l"; "o"; "lo"]))
                       (skipn 2 lines)));
          last_time := now |}.
Proof.
  assert (E : forall x, dev_filter default_config x
                       = negb (PyStr.mem (dev_name x) [""; "l"; "o"; "lo"])).
  { intros x. unfold dev_filter, default_config, py_in.
    cbn [interfaces_blacklist all_interfaces].
    rewrite contains_lo.
    destruct (PyStr.mem (dev_name x) [""; "l"; "o"; "lo"]); reflexivity. }
  unfold __init__, _get_stat, open_readlines, rbind, rcatch.
  rewrite (filter_ext _ _ E). reflexivity.
Qed.

(** ** What a call that returns has produced *)

Lemma paired_unique cfg w self d1 d2 :
  paired cfg w self d1 -> paired cfg w self d2 -> d1 = d2.
Proof.
  intros (ns1 & p1 & Hn1 & Hz1 & Hl1) (ns2 & p2 & Hn2 & Hz2 & Hl2).
  rewrite Hn1 in Hn2. injection Hn2 as <-.
  rewrite Hz1 in Hz2. injection Hz2 as <-.
  rewrite Hl1 in Hl2. injection Hl2 as <-. reflexivity.
Qed.

Lemma delta_of_Some deltas i d :
  delta_of deltas i = Ok (Some d) ->
  exists n, i = Some n /\ PyStr.truthy n = true /\ PyDict.get n deltas = Ok d.
Proof.
  unfold delta_of. destruct i as [n|]; [| discriminate].
  destruct (PyStr.truthy n) eqn:Hn; [| discriminate].
  destruct (PyDict.get n deltas) as [d'|e] eqn:Hg; simpl; [| discriminate].
  intros [= <-]. eauto.
Qed.

(** The sample and the instance that [report] leaves when it returns. *)
Lemma report_Returned_inv cfg w deltas self self' s :
  report cfg w deltas self = Returned self' s ->
  exists dl, delta_of deltas (interface s) = Ok dl /\ delta s = dl /\
             interface s = last_interface self' /\
             (hide s = true -> hide_if_zero cfg = true).
Proof.
  intros Hr.
  destruct (report_Returned _ _ _ _ _ _ Hr) as (s2 & sel & t & Hs & Hmax & Ht).
  rewrite (report_eq _ _ _ _ _ _ _ Hs Hmax Ht) in Hr. cbv zeta in Hr.
  destruct (eq_zero t).
  - destruct (delta_of deltas (last_interface self)) as [d|e] eqn:Hd;
      [| discriminate].
    injection Hr as <- <-. simpl. exists d. auto.
  - destruct (delta_of deltas (Some sel)) as [d|e] eqn:Hd; [| discriminate].
    injection Hr as <- <-. simpl. exists d.
    repeat apply conj; auto. discriminate.
Qed.

(** A returned sample carries rates exactly when it names an interface. *)
Lemma sample_rates_iff cfg w self self' s :
  currentSpeed_sample cfg w self = Returned self' s ->
  (truthy_name (interface s) = true <-> delta s <> None).
Proof.
  intros H.
  destruct (currentSpeed_sample_Returned _ _ _ _ _ H)
    as [(-> & -> & _) | (deltas & Hp & Hr)].
  - simpl. split; [discriminate | congruence].
  - destruct (report_Returned_inv _ _ _ _ _ _ Hr) as (dl & Hd & Hdl & _).
    rewrite Hdl. destruct dl as [d|].
    + apply delta_of_Some in Hd. destruct Hd as (n & -> & Hn & _). simpl.
      split; [discriminate | intros _; exact Hn].
    + apply delta_of_None in Hd. rewrite Hd.
      split; [discriminate | congruence].
Qed.

(** X5: whenever a call returns a sample, the sample hides only if
    [hide_if_zero] is set, and it carries rates exactly when it names an
    interface; after a paired cycle the interface it names is the one the
    instance now stores as last reported, and its rates are the entry of
    that interface in the rates of the cycle. *)
Theorem sample_invariants cfg w self self' s :
  currentSpeed_sample cfg w self = Returned self' s ->
  (hide s = true -> hide_if_zero cfg = true) /\
  (truthy_name (interface s) = true <-> delta s <> None) /\
  (forall deltas, paired cfg w self deltas ->
     interface s = last_interface self' /\
     forall d, delta s = Some d ->
       exists i, interface s = Some i /\ PyDict.get i deltas = Ok d).
Proof.
  intros H.
  destruct (currentSpeed_sample_Returned _ _ _ _ _ H)
    as [(-> & -> & ns & Hns & Hzip) | (deltas & Hp & Hr)].
  - simpl. split; [auto |]. split.
    + split; [discriminate | congruence].
    + intros deltas (ns' & pairs & Hns' & Hz' & _).
      rewrite Hns in Hns'. injection Hns' as <-. rewrite Hzip in Hz'. discriminate.
  - destruct (report_Returned_inv _ _ _ _ _ _ Hr) as (dl & Hd & Hdl & Hi & Hh).
    split; [exact Hh |]. split.
    + exact (sample_rates_iff _ _ _ _ _ H).
    + intros deltas' Hp'. rewrite (paired_unique _ _ _ _ _ Hp' Hp).
      split; [exact Hi |]. intros d Hsd. rewrite Hdl in Hsd. rewrite Hsd in Hd.
      apply delta_of_Some in Hd. destruct Hd as (n & Hn & _ & Hg). eauto.
Qed.

Lemma sample_invariants_witness :
  currentSpeed_sample configured both_active two_at_rest
    = Returned
        {| last_interface := Some "wlan0:";
           last_stat := Some [row "eth0" "500" "0"; row "wlan0" "1500" "0"];
           last_time := of_int 11 |}
        {| delta := Some {| total := of_int 1500; up := of_int 0;
                            down := of_int 1500 |};
           interface := Some "wlan0:"; hide := false |} /\
  (truthy_name (Some "wlan0:") = true <->
   Some {| total := of_int 1500; up := of_int 0; down := of_int 1500 |} <> None).
Proof.
  assert (E : currentSpeed_sample configured both_active two_at_rest
              = Returned
                  {| last_interface := Some "wlan0:";
                     last_stat := Some [row "eth0" "500" "0"; row "wlan0" "1500" "0"];
                     last_time := of_int 11 |}
                  {| delta := Some {| total := of_int 1500; up := of_int 0;
                                      down := of_int 1500 |};
                     interface := Some "wlan0:"; hide := false |})
    by (vm_compute; reflexivity).
  split; [exact E |].
  exact (proj1 (proj2 (sample_invariants _ _ _ _ _ E))).
Defined.

(** ** The response of [currentSpeed] *)

(** X6: the lines after the [try] never raise on what the [try] has
    produced: whenever the sample is returned so is the response, with the
    same instance.  Its deadline is [time_in(cache_timeout)]; its text is
    empty when the sample hides, else [format_no_connection] when it names no
    interface, else the template filled with the three rendered rates and the
    name of the interface less its last character, the colon. *)
Theorem currentSpeed_responds deadline time_in fv sf cfg w self self' s :
  currentSpeed_sample cfg w self = Returned self' s ->
  currentSpeed deadline time_in fv sf cfg w self
  = Returned self'
      {| cached_until := time_in (cache_timeout cfg);
         full_text :=
           if hide s then EmptyString
           else match delta s, interface s with
                | Some d, Some i =>
                    sf (format cfg)
                      [("down", fv (down d)); ("total", fv (total d));
                       ("up", fv (up d)); ("interface", PyStr.drop_last i)]
                | _, _ => format_no_connection cfg
                end |}.
Proof.
  intros H.
  pose proof (sample_rates_iff _ _ _ _ _ H) as Hiff.
  unfold currentSpeed, mbind. rewrite H. unfold lift, respond.
  destruct (hide s); [reflexivity |].
  destruct (truthy_name (interface s)) eqn:Ht; simpl.
  - destruct (delta s) as [d|];
      [| exfalso; apply (proj1 Hiff eq_refl); reflexivity].
    destruct (interface s) as [i|]; [reflexivity | discriminate Ht].
  - destruct (delta s) as [d|]; [| destruct (interface s); reflexivity].
    assert (Hc : false = true) by (apply Hiff; discriminate).
    discriminate Hc.
Qed.

Lemma currentSpeed_responds_witness :
  currentSpeed unit (fun _ => tt) (fun _ => "v") (fun f _ => f)
    configured both_active two_at_rest
  = Returned
      {| last_interface := Some "wlan0:";
         last_stat := Some [row "eth0" "500" "0"; row "wlan0" "1500" "0"];
         last_time := of_int 11 |}
      {| cached_until := tt; full_text := "{interface}: {total}" |}.
Proof.
  assert (E : currentSpeed_sample configured both_active two_at_rest
              = Returned
                  {| last_interface := Some "wlan0:";
                     last_stat := Some [row "eth0" "500" "0"; row "wlan0" "1500" "0"];
                     last_time := of_int 11 |}
                  {| delta := Some {| total := of_int 1500; up := of_int 0;
                                      down := of_int 1500 |};
                     interface := Some "wlan0:"; hide := false |})
    by (vm_compute; reflexivity).
  exact (currentSpeed_responds unit (fun _ => tt) (fun _ => "v") (fun f _ => f)
           _ _ _ _ _ E).
Defined.

(** ** Cycles that end in an error *)

(** X7: when the stored or the new snapshot has no row, for instance because
    the filter refuses every interface, the call returns no sample: [max]
    raises [ValueError] on the empty rates, which no handler catches, and the
    instance has by then stored the snapshot of the second read and its
    time. *)
Theorem no_interface_raises cfg w self olds news s2 :
  last_stat self = Some olds ->
  _get_stat cfg (read1 w) = Ok (Some news) ->
  olds = [] \/ news = [] ->
  _get_stat cfg (read2 w) = Ok s2 ->
  currentSpeed_sample cfg w self = Raised (advanced self s2 (time2 w)) ValueError.
Proof.
  intros Hold Hnew Hempty Hs2.
  assert (Hz : py_zip (last_stat self) (Some news) = Ok [])
    by (rewrite Hold; simpl; destruct Hempty as [-> | ->];
        [reflexivity | rewrite combine_nil; reflexivity]).
  rewrite (currentSpeed_sample_paired _ _ _ _ _ Hnew Hz). simpl.
  apply report_empty, Hs2.
Qed.

Lemma no_interface_raises_witness :
  currentSpeed_sample configured
    {| read1 := Some (header ++ [row_line "lo" "900" "900"])%list;
       time1 := of_int 11;
       read2 := Some (header ++ [row_line "lo" "900" "900"])%list;
       time2 := of_int 12 |}
    eth0_at_10
  = Raised (advanced eth0_at_10 (Some []) (of_int 12)) ValueError.
Proof.
  apply (no_interface_raises configured
           {| read1 := Some (header ++ [row_line "lo" "900" "900"])%list;
              time1 := of_int 11;
              read2 := Some (header ++ [row_line "lo" "900" "900"])%list;
              time2 := of_int 12 |}
           eth0_at_10 [row "eth0" "1000" "200"] [] (Some [])).
  - reflexivity.
  - vm_compute; reflexivity.
  - right; reflexivity.
  - vm_compute; reflexivity.
Defined.

Lemma loop_body_err_kind timedelta deltas old new e :
  loop_body timedelta deltas old new = Err e ->
  e = IndexError \/ e = ValueError \/ e = OverflowError \/ e = ZeroDivisionError.
Proof.
  unfold loop_body. intros H.
  repeat match goal with
  | H : rbind _ _ = Err _ |- _ =>
      apply rbind_Err in H; destruct H as [H | (? & _ & H)]
  | H : py_index _ _ = Err _ |- _ => apply py_index_err in H; subst; tauto
  | H : PyStr.py_int _ = Err _ |- _ => apply py_int_err in H; subst; tauto
  | H : truediv_int _ _ = Err _ |- _ =>
      apply truediv_int_err in H; destruct H; subst; tauto
  | H : Ok _ = Err _ |- _ => discriminate H
  end.
Qed.

Lemma for_each_err_kind timedelta pairs deltas e :
  for_each timedelta pairs deltas = Err e ->
  e = IndexError \/ e = ValueError \/ e = OverflowError \/ e = ZeroDivisionError.
Proof.
  revert deltas. induction pairs as [|[old new] pairs IH]; simpl; intros deltas H.
  - discriminate.
  - apply rbind_Err in H. destruct H as [H | (d' & _ & H)].
    + eapply loop_body_err_kind; eauto.
    + eapply IH; eauto.
Qed.

Lemma py_index_length {A} (l : list A) (i : nat) (a : A) :
  py_index l i = Ok a -> (i < List.length l)%nat.
Proof.
  unfold py_index. destruct (nth_error l i) eqn:E; [| discriminate].
  intros _. apply nth_error_Some. congruence.
Qed.

Lemma loop_body_lengths timedelta deltas old new deltas' :
  loop_body timedelta deltas old new = Ok deltas' ->
  (10 <= List.length old)%nat /\ (10 <= List.length new)%nat.
Proof.
  intros H. apply loop_body_Ok in H.
  destruct H as (? & ? & tn & to & _ & _ & _ & _ & _ & Htn & Hto & _).
  unfold bytesSent in Htn, Hto.
  apply rbind_Ok in Htn, Hto.
  destruct Htn as (? & Htn & _), Hto as (? & Hto & _).
  apply py_index_length in Htn, Hto. lia.
Qed.

Lemma for_each_lengths timedelta pairs deltas deltas' old new :
  for_each timedelta pairs deltas = Ok deltas' ->
  In (old, new) pairs ->
  (10 <= List.length old)%nat /\ (10 <= List.length new)%nat.
Proof.
  revert deltas. induction pairs as [|[o n] pairs IH]; simpl; intros deltas H Hin.
  - contradiction.
  - apply rbind_Ok in H. destruct H as (d1 & H1 & H2).
    destruct Hin as [[= -> ->] | Hin]; [eapply loop_body_lengths; eauto | eauto].
Qed.

(** X8: if a row that takes part in the pairing, stored or new, has fewer
    than ten words, the call returns no sample: it ends with an error of the
    loop, one of [IndexError], [ValueError], [OverflowError] and
    [ZeroDivisionError], none of which is caught, and the instance is left
    exactly as it was, so the next call meets the same stored row. *)
Theorem short_row_raises cfg w self olds news i old new :
  last_stat self = Some olds ->
  _get_stat cfg (read1 w) = Ok (Some news) ->
  nth_error olds i = Some old ->
  nth_error news i = Some new ->
  (List.length old < 10)%nat \/ (List.length new < 10)%nat ->
  exists e,
    currentSpeed_sample cfg w self = Raised self e /\
    (e = IndexError \/ e = ValueError \/ e = OverflowError \/ e = ZeroDivisionError).
Proof.
  intros Hold Hnew Hio Hin Hshort.
  assert (Hz : py_zip (last_stat self) (Some news) = Ok (combine olds news))
    by (rewrite Hold; reflexivity).
  rewrite (currentSpeed_sample_paired _ _ _ _ _ Hnew Hz).
  destruct (for_each _ (combine olds news) []) as [deltas|e] eqn:Hl.
  - exfalso.
    assert (Hp : In (old, new) (combine olds news)).
    { apply (nth_error_In _ i). apply nth_error_combine. auto. }
    destruct (for_each_lengths _ _ _ _ _ _ Hl Hp). lia.
  - exists e. split; [reflexivity |]. eapply for_each_err_kind; eauto.
Qed.

Lemma short_row_raises_witness :
  exists e,
    currentSpeed_sample configured one_second_later
      {| last_interface := None;
         last_stat := Some [["eth0:"; "1000"]];
         last_time := of_int 10 |}
    = Raised {| last_interface := None;
                last_stat := Some [["eth0:"; "1000"]];
                last_time := of_int 10 |} e /\
    (e = IndexError \/ e = ValueError \/ e = OverflowError \/ e = ZeroDivisionError).
Proof.
  apply (short_row_raises configured one_second_later
           {| last_interface := None;
              last_stat := Some [["eth0:"; "1000"]];
              last_time := of_int 10 |}
           [["eth0:"; "1000"]] [row "eth0" "2000" "700"] 0
           ["eth0:"; "1000"] (row "eth0" "2000" "700")).
  - reflexivity.
  - vm_compute; reflexivity.
  - reflexivity.
  - reflexivity.
  - left. simpl. lia.
Defined.

(** ** The keys of the rates *)

Lemma keys_set {V} (k : string) (v : V) (d : PyDict.dict V) :
  PyDict.keys (PyDict.set k v d)
  = if PyStr.mem k (PyDict.keys d) then PyDict.keys d
    else (PyDict.keys d ++ [k])%list.
Proof.
  unfold PyStr.mem. induction d as [|[k' v'] d IH]; simpl; [reflexivity |].
  destruct (String.eqb k k') eqn:E; simpl; [reflexivity |].
  rewrite IH. destruct (existsb (String.eqb k) (PyDict.keys d)); reflexivity.
Qed.

Lemma set_NoDup {V} (k : string) (v : V) (d : PyDict.dict V) :
  NoDup (PyDict.keys d) -> NoDup (PyDict.keys (PyDict.set k v d)).
Proof.
  intros H. rewrite keys_set.
  destruct (PyStr.mem k (PyDict.keys d)) eqn:E; [exact H |].
  apply NoDup_app; [exact H | repeat constructor; intros [] |].
  intros a Ha [<- | []]. apply mem_In in Ha. congruence.
Qed.

Lemma set_keys_iff {V} (name : string) (v : V) (d : PyDict.dict V) (k : string) :
  In k (PyDict.keys (PyDict.set name v d)) <-> k = name \/ In k (PyDict.keys d).
Proof.
  rewrite keys_set. destruct (PyStr.mem name (PyDict.keys d)) eqn:E.
  - apply mem_In in E. split; [tauto | intros [-> | H]; assumption].
  - rewrite in_app_iff. simpl. intuition congruence.
Qed.

Lemma for_each_keys_iff timedelta pairs deltas deltas' :
  for_each timedelta pairs deltas = Ok deltas' ->
  (NoDup (PyDict.keys deltas) -> NoDup (PyDict.keys deltas')) /\
  forall k, In k (PyDict.keys deltas') <->
            In k (PyDict.keys deltas) \/
            exists i old new, nth_error pairs i = Some (old, new) /\
                              nth_error new 0 = Some k.
Proof.
  revert deltas. induction pairs as [|[old new] pairs IH]; simpl; intros deltas H.
  - injection H as <-. split; [auto |]. intros k. split; [tauto |].
    intros [Hk | (i & o & n & Hi & _)]; [exact Hk | destruct i; discriminate].
  - apply rbind_Ok in H. destruct H as (d1 & H1 & H2).
    destruct (IH _ H2) as [IHn IHk].
    apply loop_body_Ok in H1.
    destruct H1 as (? & ? & ? & ? & dn & u & name & _ & _ & _ & _ & _ & _ & Hn & ->).
    split; [intros Hnd; apply IHn, set_NoDup, Hnd |].
    intros k. rewrite IHk, set_keys_iff. split.
    + intros [[-> | Hk] | (i & o & n & Hi & Hk)].
      * right. exists 0%nat, old, new. auto.
      * tauto.
      * right. exists (S i), o, n. auto.
    + intros [Hk | (i & o & n & Hi & Hk)]; [tauto |].
      destruct i as [|i]; simpl in Hi.
      * injection Hi as E1 E2. subst o n. left. left.
        cbn in Hn, Hk. congruence.
      * right. eauto.
Qed.

(** X9: the rates of a paired cycle have one entry for each distinct first
    word among the new rows that were paired, and no other: the keys have
    no duplicate, and a string is a key exactly when it is the first word of
    a new row at an index that the stored snapshot also has. *)
Theorem deltas_keys cfg w self deltas olds news :
  paired cfg w self deltas ->
  last_stat self = Some olds ->
  _get_stat cfg (read1 w) = Ok (Some news) ->
  NoDup (PyDict.keys deltas) /\
  forall k, In k (PyDict.keys deltas) <->
            exists i new, (i < List.length olds)%nat /\
                          nth_error news i = Some new /\
                          nth_error new 0 = Some k.
Proof.
  intros (ns & pairs & Hns & Hz & Hl) Hold Hnew.
  rewrite Hnew in Hns. injection Hns as <-.
  rewrite Hold in Hz. simpl in Hz. injection Hz as <-.
  destruct (for_each_keys_iff _ _ _ _ Hl) as [Hnd Hk].
  split; [apply Hnd; constructor |].
  intros k. rewrite Hk. simpl. split.
  - intros [[] | (i & o & n & Hi & Hn)].
    apply nth_error_combine in Hi. destruct Hi as [Ho Hi].
    exists i, n. repeat apply conj; auto.
    apply nth_error_Some. congruence.
  - intros (i & n & Hlt & Hi & Hn). right.
    destruct (nth_error olds i) as [o|] eqn:Ho;
      [| apply nth_error_Some in Hlt; contradiction].
    exists i, o, n. split; [apply nth_error_combine; auto | exact Hn].
Qed.

Lemma deltas_keys_witness :
  paired configured both_active two_at_rest both_active_deltas /\
  NoDup (PyDict.keys both_active_deltas).
Proof.
  assert (Hp : paired configured both_active two_at_rest both_active_deltas).
  { exists (Some [row "eth0" "500" "0"; row "wlan0" "1500" "0"]).
    exists (combine [row "eth0" "0" "0"; row "wlan0" "0" "0"]
                    [row "eth0" "500" "0"; row "wlan0" "1500" "0"]).
    by_computation. }
  split; [exact Hp |].
  assert (Hnew : _get_stat configured (read1 both_active)
                 = Ok (Some [row "eth0" "500" "0"; row "wlan0" "1500" "0"]))
    by (vm_compute; reflexivity).
  exact (proj1 (deltas_keys configured both_active two_at_rest both_active_deltas
                  [row "eth0" "0" "0"; row "wlan0" "0" "0"]
                  [row "eth0" "500" "0"; row "wlan0" "1500" "0"]
                  Hp eq_refl Hnew)).
Defined.

(** ** A cycle without traffic *)

Lemma fdiv_zero timedelta :
  is_zero timedelta = false -> is_nan timedelta = false ->
  is_zero (fdiv (of_int 0) timedelta) = true.
Proof.
  change (of_int 0) with (S754_zero false).
  destruct timedelta; simpl; intros; congruence.
Qed.

Lemma fadd_zero a b :
  is_zero a = true -> is_zero b = true -> is_zero (fadd a b) = true.
Proof.
  destruct a as [sa| | |], b as [sb| | |]; try discriminate.
  destruct sa, sb; reflexivity.
Qed.

Lemma is_zero_eq_zero a : is_zero a = true -> eq_zero a = true.
Proof. destruct a; try discriminate. reflexivity. Qed.

Lemma find_set {V} (k name : string) (v : V) (d : PyDict.dict V) :
  PyDict.find k (PyDict.set name v d)
  = if String.eqb k name then Some v else PyDict.find k d.
Proof.
  destruct (String.eqb_spec k name) as [-> | Hne].
  - apply find_set_same.
  - apply find_set_other, Hne.
Qed.

(** The rates one round stores when the counters of its pair are equal. *)
Lemma loop_body_idle timedelta deltas old new deltas' :
  loop_body timedelta deltas old new = Ok deltas' ->
  bytesReceived new = bytesReceived old ->
  bytesSent new = bytesSent old ->
  is_nan timedelta = false ->
  exists name r,
    deltas' = PyDict.set name r deltas /\
    is_zero (total r) = true /\ is_zero (up r) = true /\ is_zero (down r) = true.
Proof.
  intros H Hrx Htx Hnan. apply loop_body_Ok in H.
  destruct H as (a & b & c & d & dn & u & name
                 & Ha & Hb & Hc & Hd & Hdn & Hu & _ & ->).
  rewrite Hrx, Hb in Ha. injection Ha as <-.
  rewrite Htx, Hd in Hc. injection Hc as <-.
  rewrite Z.sub_diag in Hdn, Hu.
  assert (Hz : is_zero timedelta = false).
  { unfold truediv_int in Hdn. destruct (is_inf (of_int 0)); [discriminate |].
    destruct (is_zero timedelta); [discriminate | reflexivity]. }
  apply truediv_int_Ok in Hdn, Hu. subst dn u.
  exists name, {| total := fadd (fdiv (of_int 0) timedelta) (fdiv (of_int 0) timedelta);
                  up := fdiv (of_int 0) timedelta;
                  down := fdiv (of_int 0) timedelta |}.
  pose proof (fdiv_zero _ Hz Hnan) as Hq.
  repeat apply conj; auto. simpl. apply fadd_zero; exact Hq.
Qed.

Lemma for_each_idle timedelta pairs deltas deltas' :
  for_each timedelta pairs deltas = Ok deltas' ->
  (forall old new, In (old, new) pairs ->
     bytesReceived new = bytesReceived old /\ bytesSent new = bytesSent old) ->
  is_nan timedelta = false ->
  (forall k r, PyDict.find k deltas = Some r ->
     is_zero (total r) = true /\ is_zero (up r) = true /\ is_zero (down r) = true) ->
  forall k r, PyDict.find k deltas' = Some r ->
    is_zero (total r) = true /\ is_zero (up r) = true /\ is_zero (down r) = true.
Proof.
  revert deltas. induction pairs as [|[old new] pairs IH]; simpl;
    intros deltas H Hidle Hnan Hd.
  - injection H as <-. exact Hd.
  - apply rbind_Ok in H. destruct H as (d1 & H1 & H2).
    apply (IH d1 H2); auto.
    destruct (Hidle old new (or_introl eq_refl)) as [Hrx Htx].
    destruct (loop_body_idle _ _ _ _ _ H1 Hrx Htx Hnan) as (name & r0 & -> & Hr0).
    intros k r. rewrite find_set.
    destruct (String.eqb k name); [intros [= <-]; exact Hr0 | apply Hd].
Qed.

(** X10: in a paired cycle in which no counter has moved (each new row has
    the received and sent bytes of the stored row it is paired with) and some
    time has passed, every rate of the cycle is zero.  The call then falls
    back: it names the last reported interface and hides when
    [hide_if_zero] is set; when no interface was reported yet it answers
    without rates, which shows [format_no_connection].  The snapshot and the
    time of the second read are stored and the last reported interface is
    unchanged. *)
Theorem idle_cycle cfg w self deltas olds news s2 :
  paired cfg w self deltas ->
  deltas <> [] ->
  last_stat self = Some olds ->
  _get_stat cfg (read1 w) = Ok (Some news) ->
  (forall i old new, nth_error olds i = Some old -> nth_error news i = Some new ->
     bytesReceived new = bytesReceived old /\ bytesSent new = bytesSent old) ->
  is_nan (fsub (time1 w) (last_time self)) = false ->
  _get_stat cfg (read2 w) = Ok s2 ->
  (forall k r, PyDict.get k deltas = Ok r ->
     is_zero (total r) = true /\ is_zero (up r) = true /\ is_zero (down r) = true) /\
  currentSpeed_sample cfg w self
  = match delta_of deltas (last_interface self) with
    | Ok d => Returned (advanced self s2 (time2 w))
                {| delta := d; interface := last_interface self;
                   hide := hide_if_zero cfg |}
    | Err e => Raised (advanced self s2 (time2 w)) e
    end.
Proof.
  intros Hp Hne Hold Hnew Hidle Hnan Hs2.
  assert (Hall : forall k r, PyDict.find k deltas = Some r ->
            is_zero (total r) = true /\ is_zero (up r) = true /\
            is_zero (down r) = true).
  { destruct Hp as (ns & pairs & Hns & Hz & Hl).
    rewrite Hnew in Hns. injection Hns as <-.
    rewrite Hold in Hz. simpl in Hz. injection Hz as <-.
    apply (for_each_idle _ _ _ _ Hl); auto.
    - intros old new Hin. apply In_nth_error in Hin. destruct Hin as (i & Hi).
      apply nth_error_combine in Hi. destruct Hi as [Ho Hn]. eauto.
    - discriminate. }
  split.
  - intros k r Hg. apply (Hall k). unfold PyDict.get in Hg.
    destruct (PyDict.find k deltas); [injection Hg as <-; reflexivity | discriminate].
  - destruct (py_max_total (total_of deltas) (PyDict.keys deltas)) as (sel & Hmax).
    { destruct deltas; [congruence | discriminate]. }
    { intros k Hk. destruct (keys_get _ _ Hk) as (v & Hv).
      exists (total v). unfold total_of. rewrite Hv. reflexivity. }
    destruct (py_max_spec _ _ _ Hmax) as (_ & t & _ & Ht & _).
    rewrite (currentSpeed_sample_report _ _ _ _ Hp).
    rewrite (report_eq _ _ _ _ _ _ _ Hs2 Hmax Ht). cbv zeta.
    destruct (total_of_Ok _ _ _ Ht) as (d & Hd & <-).
    unfold PyDict.get in Hd.
    destruct (PyDict.find sel deltas) as [d'|] eqn:Hf; [| discriminate].
    injection Hd as ->.
    destruct (Hall sel d Hf) as [Hz _].
    rewrite (is_zero_eq_zero _ Hz). reflexivity.
Qed.

Lemma idle_cycle_witness :
  currentSpeed_sample configured idle_second eth0_at_10
  = Returned (advanced eth0_at_10 (Some [row "eth0" "1000" "200"]) (of_int 11))
      (NoData configured).
Proof.
  assert (Hp : paired configured idle_second eth0_at_10
                 [("eth0:", {| total := of_int 0; up := of_int 0;
                               down := of_int 0 |})]).
  { exists (Some [row "eth0" "1000" "200"]).
    exists (combine [row "eth0" "1000" "200"] [row "eth0" "1000" "200"]).
    by_computation. }
  assert (Hnew : _get_stat configured (read1 idle_second)
                 = Ok (Some [row "eth0" "1000" "200"]))
    by (vm_compute; reflexivity).
  assert (Hs2 : _get_stat configured (read2 idle_second)
                = Ok (Some [row "eth0" "1000" "200"]))
    by (vm_compute; reflexivity).
  assert (Hnan : is_nan (fsub (time1 idle_second) (last_time eth0_at_10)) = false)
    by (vm_compute; reflexivity).
  refine (proj2 (idle_cycle configured idle_second eth0_at_10 _
                   [row "eth0" "1000" "200"] [row "eth0" "1000" "200"] _
                   Hp _ eq_refl Hnew _ Hnan Hs2)).
  - discriminate.
  - intros [|[|i]] old new Ho Hn; try discriminate.
    injection Ho as <-. injection Hn as <-. split; reflexivity.
Defined.

(** ** What a call does to the instance *)

Lemma report_instance cfg w deltas self :
  instance_of (report cfg w deltas self) = self \/
  exists s2,
    _get_stat cfg (read2 w) = Ok s2 /\
    (instance_of (report cfg w deltas self) = advanced self s2 (time2 w) \/
     exists sel t,
       In sel (PyDict.keys deltas) /\ total_of deltas sel = Ok t /\
       eq_zero t = false /\
       instance_of (report cfg w deltas self)
         = reported (advanced self s2 (time2 w)) sel).
Proof.
  destruct (_get_stat cfg (read2 w)) as [s2|e1] eqn:Hs.
  2:{ left. apply get_stat_err in Hs. destruct Hs as [_ Hs].
      rewrite (report_read_fails _ _ _ _ Hs). reflexivity. }
  right. exists s2. split; [reflexivity |].
  destruct (py_max (total_of deltas) (PyDict.keys deltas)) as [sel|e2] eqn:Hmax.
  2:{ left. unfold report. run_M. rewrite Hs, Hmax. reflexivity. }
  destruct (total_of deltas sel) as [t|e3] eqn:Ht.
  2:{ left. unfold report. run_M. rewrite Hs, Hmax, Ht. reflexivity. }
  rewrite (report_eq _ _ _ _ _ _ _ Hs Hmax Ht). cbv zeta.
  destruct (eq_zero t) eqn:Hz.
  - left. destruct (delta_of deltas (last_interface self)); reflexivity.
  - right. exists sel, t. apply py_max_In in Hmax.
    repeat apply conj; auto.
    destruct (delta_of deltas (Some sel)); reflexivity.
Qed.

(** The three states in which a call can leave the instance. *)
Lemma call_instance cfg w self :
  instance_of (currentSpeed_sample cfg w self) = self \/
  exists s2,
    _get_stat cfg (read2 w) = Ok s2 /\
    (instance_of (currentSpeed_sample cfg w self) = advanced self s2 (time2 w) \/
     exists deltas sel t,
       paired cfg w self deltas /\
       In sel (PyDict.keys deltas) /\ total_of deltas sel = Ok t /\
       eq_zero t = false /\
       instance_of (currentSpeed_sample cfg w self)
         = reported (advanced self s2 (time2 w)) sel).
Proof.
  destruct (_get_stat cfg (read1 w)) as [ns|e] eqn:Hns.
  2:{ left. apply get_stat_err in Hns. destruct Hns as [_ Hns].
      rewrite (currentSpeed_sample_read_fails _ _ _ Hns). reflexivity. }
  destruct (py_zip (last_stat self) ns) as [pairs|e] eqn:Hzip.
  2:{ left. destruct (py_zip_err _ _ _ Hzip) as [-> _].
      rewrite (currentSpeed_sample_unpaired _ _ _ _ Hns Hzip). reflexivity. }
  rewrite (currentSpeed_sample_paired _ _ _ _ _ Hns Hzip).
  destruct (for_each _ pairs []) as [deltas|e] eqn:Hl; [| left; reflexivity].
  destruct (report_instance cfg w deltas self)
    as [H | (s2 & Hs & [H | (sel & t & Hin & Ht & Hz & H)])].
  - left. exact H.
  - right. exists s2. auto.
  - right. exists s2. split; [exact Hs |]. right.
    exists deltas, sel, t. repeat apply conj; auto.
    exists ns, pairs. auto.
Qed.

(** X11: whether it returns or raises, a call changes the stored snapshot and
    the stored time together or not at all: either both are as they were, or
    they are the snapshot of the second read and the clock read after it.
    And it changes the last reported interface only to a key of the rates of
    the cycle whose total is not zero, never to an interface without
    traffic. *)
Theorem currentSpeed_sample_instance cfg w self :
  ((last_stat (instance_of (currentSpeed_sample cfg w self)) = last_stat self /\
    last_time (instance_of (currentSpeed_sample cfg w self)) = last_time self) \/
   (_get_stat cfg (read2 w)
      = Ok (last_stat (instance_of (currentSpeed_sample cfg w self))) /\
    last_time (instance_of (currentSpeed_sample cfg w self)) = time2 w)) /\
  (last_interface (instance_of (currentSpeed_sample cfg w self))
     = last_interface self \/
   exists deltas sel t,
     paired cfg w self deltas /\
     In sel (PyDict.keys deltas) /\ total_of deltas sel = Ok t /\
     eq_zero t = false /\
     last_interface (instance_of (currentSpeed_sample cfg w self)) = Some sel).
Proof.
  destruct (call_instance cfg w self)
    as [-> | (s2 & Hs & [-> | (deltas & sel & t & Hp & Hin & Ht & Hz & ->)])].
  - split; left; auto.
  - simpl. split; [right | left]; auto.
  - simpl. split; [right; auto | right].
    exists deltas, sel, t. auto.
Qed.


(** X12: in a running module, from [__init__] on and through calls that
    return or raise, the stored snapshot is always a sequence of rows of
    non-empty words and the last reported interface is [None] or a non-empty
    name.  So the handler of [TypeError] never answers: every call that
    returns has paired its rows. *)
Theorem running_invariant cfg self :
  running cfg self ->
  (exists rows, last_stat self = Some rows /\
                Forall (Forall (fun x => PyStr.truthy x = true)) rows) /\
  (forall name, last_interface self = Some name -> PyStr.truthy name = true) /\
  (forall w self' s,
     currentSpeed_sample cfg w self = Returned self' s ->
     exists deltas, paired cfg w self deltas).
Proof.
  intros Hrun.
  assert (Hinv : (exists rows, last_stat self = Some rows /\
                    Forall (Forall (fun x => PyStr.truthy x = true)) rows) /\
                 (forall name, last_interface self = Some name ->
                               PyStr.truthy name = true)).
  { induction Hrun as [devfile now self Hinit | w self Hrun [IHs IHi]].
    - unfold __init__ in Hinit. apply rbind_Ok in Hinit.
      destruct Hinit as (s & Hs & [= <-]). simpl.
      destruct (get_stat_Some _ _ _ Hs) as (rows & ->).
      split; [| discriminate]. exists rows. split; [reflexivity |].
      eapply get_stat_rows; eauto.
    - destruct (call_instance cfg w self)
        as [-> | (s2 & Hs & [-> | (deltas & sel & t & Hp & Hin & _ & _ & ->)])].
      + auto.
      + simpl. split; [| exact IHi].
        destruct (get_stat_Some _ _ _ Hs) as (rows & ->).
        exists rows. split; [reflexivity | eapply get_stat_rows; eauto].
      + simpl. split.
        * destruct (get_stat_Some _ _ _ Hs) as (rows & ->).
          exists rows. split; [reflexivity | eapply get_stat_rows; eauto].
        * intros name [= <-]. eapply paired_keys_truthy; eauto. }
  split; [exact (proj1 Hinv) |]. split; [exact (proj2 Hinv) |].
  intros w self' s H. destruct Hinv as [(rows & Hrows & _) _].
  eapply currentSpeed_sample_last_stat; eauto.
Qed.

Lemma running_invariant_witness :
  running configured
    (instance_of (currentSpeed_sample configured one_second_later
       {| last_interface := None;
          last_stat := Some [row "eth0" "1000" "200"];
          last_time := of_int 10 |})) /\
  exists rows,
    last_stat (instance_of (currentSpeed_sample configured one_second_later
       {| last_interface := None;
          last_stat := Some [row "eth0" "1000" "200"];
          last_time := of_int 10 |})) = Some rows /\
    Forall (Forall (fun x => PyStr.truthy x = true)) rows.
Proof.
  assert (Hrun : running configured
            (instance_of (currentSpeed_sample configured one_second_later
               {| last_interface := None;
                  last_stat := Some [row "eth0" "1000" "200"];
                  last_time := of_int 10 |}))).
  { apply running_call.
    apply (running_init configured
             (Some (header ++ [row_line "eth0" "1000" "200"])%list) (of_int 10)).
    vm_compute; reflexivity. }
  split; [exact Hrun |].
  exact (proj1 (running_invariant _ _ Hrun)).
Defined.

(** ** Two cycles in a row *)

(** X13: when a call from a stored sequence has returned, the rates of the
    next paired cycle are computed against the snapshot of the second read
    of that call, not against the snapshot its own rates were computed from,
    and over the time since its second reading of the clock: what the
    counters gained between the two reads of one call is in no rate. *)
Theorem next_cycle_baseline cfg w1 w2 self self1 s1 deltas2 :
  (exists rows, last_stat self = Some rows) ->
  currentSpeed_sample cfg w1 self = Returned self1 s1 ->
  paired cfg w2 self1 deltas2 ->
  exists rows2 news,
    _get_stat cfg (read2 w1) = Ok (Some rows2) /\
    _get_stat cfg (read1 w2) = Ok (Some news) /\
    for_each (fsub (time1 w2) (time2 w1)) (combine rows2 news) [] = Ok deltas2.
Proof.
  intros (rows & Hrows) H1 (ns & pairs & Hns & Hz & Hl).
  assert (Hst : exists s2, _get_stat cfg (read2 w1) = Ok s2 /\
                           last_stat self1 = s2 /\ last_time self1 = time2 w1).
  { destruct (currentSpeed_sample_Returned _ _ _ _ _ H1)
      as [(_ & _ & ns1 & Hns1 & Hzip) | (deltas & Hp & Hr)].
    - destruct (get_stat_Some _ _ _ Hns1) as (news1 & ->).
      rewrite Hrows in Hzip. discriminate.
    - destruct (report_Returned _ _ _ _ _ _ Hr) as (s2 & sel & t & Hs & Hmax & Ht).
      rewrite (report_eq _ _ _ _ _ _ _ Hs Hmax Ht) in Hr. cbv zeta in Hr.
      exists s2. split; [exact Hs |].
      destruct (eq_zero t).
      + destruct (delta_of deltas (last_interface self)); [| discriminate].
        injection Hr as <- _. auto.
      + destruct (delta_of deltas (Some sel)); [| discriminate].
        injection Hr as <- _. auto. }
  destruct Hst as (s2 & Hs & Hls & Hlt).
  rewrite Hls in Hz. rewrite Hlt in Hl.
  destruct s2 as [rows2|], ns as [news|]; try discriminate.
  injection Hz as <-. eauto.
Qed.

Lemma next_cycle_baseline_witness :
  exists rows2 news,
    _get_stat configured (read2 third_appears) = Ok (Some rows2) /\
    _get_stat configured (read1 after_third) = Ok (Some news) /\
    for_each (fsub (time1 after_third) (time2 third_appears))
      (combine rows2 news) []
    = Ok [("eth0:", {| total := of_int 0; up := of_int 0; down := of_int 0 |});
          ("wlan0:", {| total := of_int 0; up := of_int 0; down := of_int 0 |});
          ("tun0:", {| total := of_int 300; up := of_int 0; down := of_int 300 |})].
Proof.
  assert (H1 : currentSpeed_sample configured third_appears two_interfaces
               = Returned
                   {| last_interface := Some "eth0:";
                      last_stat := Some [row "eth0" "2000" "700";
                                         row "wlan0" "500" "500";
                                         row "tun0" "10" "10"];
                      last_time := of_int 11 |}
                   {| delta := Some {| total := of_int 1500; up := of_int 500;
                                       down := of_int 1000 |};
                      interface := Some "eth0:";
                      hide := false |})
    by (vm_compute; reflexivity).
  refine (next_cycle_baseline configured third_appears after_third
            two_interfaces _ _ _ _ H1 _).
  - eexists. reflexivity.
  - exists (Some [row "eth0" "2000" "700"; row "wlan0" "500" "500";
                  row "tun0" "310" "10"]).
    exists (combine [row "eth0" "2000" "700"; row "wlan0" "500" "500";
                     row "tun0" "10" "10"]
                    [row "eth0" "2000" "700"; row "wlan0" "500" "500";
                     row "tun0" "310" "10"]).
    by_computation.
Defined.

(** ** An answer without rates in a running module *)


